(** * qet: the Kafka queue receiver (pkg/kafka/queue_receiver.go)

    A shallow embedding of the receiver and of its per-message
    retry / dead-letter callback, and the properties of the
    specification that can be stated over it.

    Conventions of the embedding
    - Go's [int] is the 64-bit two's complement integer of the usual
      targets: a [Z] in [int_min .. int_max], arithmetic wraps around.
    - The Go runtime makes a channel only up to some capacity: that limit
      is a parameter, [lim], of everything that makes a channel.
    - A channel of [bool] is a bounded FIFO buffer together with the
      queue of senders parked on it.  Channels live in a store and are
      referred to by their index, so that two closures capturing the same
      channel can be told from two closures capturing different ones.
    - Everything the callback does to the outside (log lines, items put on
      the output channel, timers, calls into goka) is appended to a trace.
    - goka and the application reading the output channel are external:
      they are parameters ([Goka], [Consumer]).  The application is taken
      to react to an item when it receives it, by calling closures of that
      item; an application that calls nothing leaves the callback blocked
      on its receive. *)

From Stdlib Require Import ZArith Lia.
From Stdlib.Strings Require Import Byte.
From stdpp Require Import base list strings.

Local Open Scope Z_scope.

(** ** Go's [int] and [int64] *)

Definition int_min : Z := - 2 ^ 63.
Definition int_max : Z := 2 ^ 63 - 1.

Definition is_int (z : Z) : Prop := int_min <= z <= int_max.

(** Two's complement wrap-around of a mathematical integer. *)
Definition wrap (z : Z) : Z := (z - int_min) mod 2 ^ 64 + int_min.

Definition int_add (a b : Z) : Z := wrap (a + b).
Definition int_mul (a b : Z) : Z := wrap (a * b).

(** [time.Millisecond], in nanoseconds ([time.Duration] is an [int64]). *)
Definition Millisecond : Z := 1000000.

(** [int(math.Pow(2.0, float64(retry)))].  Powers of two are exact in
    float64; a negative exponent gives a value in (0,1), truncated to 0.
    From 2^63 on the value does not fit an [int] and Go leaves the result of
    the conversion to the implementation: [indef] is that result. *)
Definition pow2_int (indef : Z) (retry : Z) : Z :=
  if retry <? 0 then 0
  else if retry <? 63 then 2 ^ retry
  else indef.

(** ** Channels of bool *)

Record Chan : Type := mkChan {
  cap : Z;              (* buffer capacity *)
  buf : list bool;      (* buffered values, oldest first *)
  sendq : list bool     (* values of the senders blocked on the channel *)
}.

(** The largest capacity of a chan bool that makechan lets through on
    linux/amd64: maxAlloc - hchanSize, with maxAlloc = 2^48 and hchanSize =
    96 (the element is one byte). *)
Definition chan_max_amd64 : Z := 2 ^ 48 - 96.

(** [make(chan bool, size)]: a run-time panic (makechan: size out of
    range) when [size] is negative and when it is more than the runtime
    makes.  [lim] is the largest capacity for which the runtime at hand
    makes a chan bool: never more than maxAlloc - hchanSize of the target
    ([chan_max_amd64] on linux/amd64), and less on a machine that cannot
    provide the memory of the buffer. *)
Definition make_chan (lim size : Z) : option Chan :=
  if (size <? 0) || (lim <? size) then None else Some (mkChan size [] []).

(** [c <- v]: the value enters the buffer when there is room, otherwise
    the sender blocks with it. *)
Definition chan_send (v : bool) (c : Chan) : Chan :=
  if Z.of_nat (length (buf c)) <? cap c
  then mkChan (cap c) (buf c ++ [v]) (sendq c)
  else mkChan (cap c) (buf c) (sendq c ++ [v]).

(** [<-c]: the oldest value; a blocked sender, if any, then completes its
    send.  [None]: nothing to receive, the receiver blocks. *)
Definition chan_recv (c : Chan) : option (bool * Chan) :=
  match buf c, sendq c with
  | v :: b, s :: q => Some (v, mkChan (cap c) (b ++ [s]) q)
  | v :: b, [] => Some (v, mkChan (cap c) b [])
  | [], s :: q => Some (s, mkChan (cap c) [] q)
  | [], [] => None
  end.

(** Does some sender sit blocked on the channel? *)
Definition chan_blocked (c : Chan) : bool :=
  match sendq c with [] => false | _ => true end.

(** ** Work items *)

(** The closures [func() error { result <- v; return nil }]: the captured
    channel and the value they send. *)
Record Closure : Type := mkClosure { cl_chan : nat; cl_val : bool }.

(** [transform.DataBlock]. *)
Record DataBlock : Type := mkDataBlock {
  Data : list byte;
  Ack : Closure;
  Nack : Closure
}.

(** ** The observable trace *)

Inductive Level : Type := LPrint | LDebug | LInfo | LWarn | LError.

Inductive Event : Type :=
| EvLog (lvl : Level) (fmt : string)
| EvMake (ch : nat) (size : Z)
| EvOutput (db : DataBlock)
| EvTimer (d : Z)
| EvNewEmitter (bs : list string) (tp : string) (err : option string)
| EvEmitSync (tp : string) (key : string) (value : list byte) (err : option string)
| EvFinish (tp : string).

Record World : Type := mkWorld {
  chans : list Chan;
  trace : list Event
}.

Inductive Outcome : Type :=
| Returned                   (* the function returned *)
| Panicked (msg : string)    (* a run-time panic unwinds the function *)
| Blocked.                   (* the goroutine waits forever on a receive *)

(** ** The external collaborators *)

(** goka, as far as the receiver uses it.  An error is [Some e], [None]
    is Go's nil error. *)
Record Goka : Type := mkGoka {
  NewProcessor : list string -> string -> string -> option string;
  NewEmitter : list string -> string -> option string;
  EmitSync : string -> string -> list byte -> option string
}.

(** The application on the other end of the output channel: what it
    calls, in order, on the n-th item it takes off the channel. *)
Inductive Call : Type := CallAck | CallNack.

Definition Consumer : Type := nat -> DataBlock -> list Call.

(** ** World operations *)

Definition emit (e : Event) (w : World) : World :=
  mkWorld (chans w) (trace w ++ [e]).

Definition logf (lvl : Level) (fmt : string) (w : World) : World :=
  emit (EvLog lvl fmt) w.

(** [make(chan bool, size)] in the store. *)
Definition make (lim size : Z) (w : World) : option (nat * World) :=
  match make_chan lim size with
  | None => None
  | Some c =>
      let ch := length (chans w) in
      Some (ch, mkWorld (chans w ++ [c]) (trace w ++ [EvMake ch size]))
  end.

Definition send (ch : nat) (v : bool) (w : World) : World :=
  match chans w !! ch with
  | Some c => mkWorld (<[ch := chan_send v c]> (chans w)) (trace w)
  | None => w
  end.

Definition recv (ch : nat) (w : World) : option (bool * World) :=
  match chans w !! ch with
  | Some c =>
      match chan_recv c with
      | Some (v, c') => Some (v, mkWorld (<[ch := c']> (chans w)) (trace w))
      | None => None
      end
  | None => None
  end.

(** Calling a closure runs its send. *)
Definition call_closure (f : Closure) (w : World) : World :=
  send (cl_chan f) (cl_val f) w.

Definition callee (c : Call) (db : DataBlock) : Closure :=
  match c with CallAck => Ack db | CallNack => Nack db end.

(** The items put on the output channel so far. *)
Fixpoint deliveries (tr : list Event) : list DataBlock :=
  match tr with
  | [] => []
  | EvOutput db :: tr => db :: deliveries tr
  | _ :: tr => deliveries tr
  end.

(** The records handed to [EmitSync] so far: topic, key, value. *)
Fixpoint emits (tr : list Event) : list (string * string * list byte) :=
  match tr with
  | [] => []
  | EvEmitSync tp k v _ :: tr => (tp, k, v) :: emits tr
  | _ :: tr => emits tr
  end.

(** The records the transport accepted: topic, key, value. *)
Fixpoint published (tr : list Event) : list (string * string * list byte) :=
  match tr with
  | [] => []
  | EvEmitSync tp k v None :: tr => (tp, k, v) :: published tr
  | _ :: tr => published tr
  end.

(** The channels made so far, each with the capacity asked for. *)
Fixpoint makes (tr : list Event) : list (nat * Z) :=
  match tr with
  | [] => []
  | EvMake ch size :: tr => (ch, size) :: makes tr
  | _ :: tr => makes tr
  end.

(** The emitters asked for so far: brokers, topic, error. *)
Fixpoint emitters (tr : list Event) : list (list string * string * option string) :=
  match tr with
  | [] => []
  | EvNewEmitter bs tp err :: tr => (bs, tp, err) :: emitters tr
  | _ :: tr => emitters tr
  end.

(** ** kafkaMsgProcessor *)

Section Processor.

Variable lim : Z.
Variable goka : Goka.
Variable output : Consumer.
Variable brokers : list string.
Variable errorTopic : string.
Variable maxRetries : Z.
Variable retryExpirationCalc : Z -> Z.

(** [output <- db]: the item reaches the application, which reacts by
    calling the closures of the item it was given. *)
Definition send_output (db : DataBlock) (w : World) : World :=
  let n := length (deliveries (trace w)) in
  foldl (fun w c => call_closure (callee c db) w) (emit (EvOutput db) w) (output n db).

(** The branch [if retries >= maxRetries { ... }], lines 144-162. *)
Definition deadLetter (data : list byte) (w : World) : Outcome * World :=
  let w := logf LWarn "Too much retries, not possible to process the message (copy at %v)" w in
  match NewEmitter goka brokers errorTopic with
  | Some err =>
      let w := emit (EvNewEmitter brokers errorTopic (Some err)) w in
      let w := logf LError "Error creating publisher to track error message: %v" w in
      (Returned, w)
  | None =>
      let w := emit (EvNewEmitter brokers errorTopic None) w in
      (* defer pub.Finish() *)
      match EmitSync goka errorTopic "" data with
      | Some err =>
          let w := emit (EvEmitSync errorTopic "" data (Some err)) w in
          let w := logf LError "Error publishing error message (potentially lost): %v" w in
          (Returned, emit (EvFinish errorTopic) w)
      | None =>
          let w := emit (EvEmitSync errorTopic "" data None) w in
          let w := logf LInfo "Error message reported correctly to %v" w in
          (Returned, emit (EvFinish errorTopic) w)
      end
  end.

(** The loop [for { select { case res := <-result: ... } } }], lines
    134-174.  Every turn either returns or counts one more retry, so the
    turns are bounded; [None] is a loop cut short by [fuel]. *)
Fixpoint loop (fuel : nat) (data : list byte) (result : nat) (db : DataBlock)
    (retries : Z) (w : World) : option (Outcome * World) :=
  match fuel with
  | O => None
  | S fuel =>
      match recv result w with
      | None => Some (Blocked, w)
      | Some (res, w) =>
          if res then Some (Returned, logf LPrint "Success on message process" w)
          else if retries >=? maxRetries then Some (deadLetter data w)
          else
            let delay := int_mul (retryExpirationCalc retries) Millisecond in
            let w := logf LDebug "Waiting on retry %v for %v" w in
            let w := emit (EvTimer delay) w in
            let w := logf LPrint "Retry %v" w in
            let w := send_output db w in
            loop fuel data result db (int_add retries 1) w
      end
  end.

(** The callback returned by [kafkaMsgProcessor], lines 117-175.  The input
    codec is [codec.Bytes], so [msg] is a byte slice. *)
Definition kafkaMsgProcessor (msg : list byte) (w : World) : option (Outcome * World) :=
  let w := logf LPrint "Message received" w in
  let data := msg in
  match make lim (int_add maxRetries 1) w with
  | None => Some (Panicked "makechan: size out of range", w)
  | Some (result, w) =>
      let db := mkDataBlock data (mkClosure result true) (mkClosure result false) in
      let w := send_output db w in
      loop (S (Z.to_nat maxRetries)) data result db 0 w
  end.

End Processor.

(** ** The receiver *)

(** [shutdown] is a func(): [None] is the nil function value, [Some ctx]
    the cancel function of the context [ctx]. *)
Record KafkaReceiver : Type := mkKafkaReceiver {
  brokers : list string;
  group : string;
  topic : string;
  errorTopic : string;
  shutdown : option nat
}.

Definition NewKafkaReceiver (brokers : list string) (group topic : string) : KafkaReceiver :=
  mkKafkaReceiver brokers group topic (topic +:+ ".errors") None.

(** The group graph given to goka: group, input stream and its callback. *)
Record Graph : Type := mkGraph {
  g_group : string;
  g_input : string;
  g_callback : list byte -> World -> option (Outcome * World)
}.

(** What the receiver does to the process: the contexts made by
    [context.WithCancel] (cancelled or not), the processors started with
    [go processor.Run(ctx)], and the receiver's own log lines. *)
Record Runtime : Type := mkRuntime {
  contexts : list bool;
  running : list (nat * Graph);
  rlog : list (Level * string)
}.

Inductive Result (A : Type) : Type :=
| Ret (a : A)
| Panic (msg : string).

Arguments Ret {A} a.
Arguments Panic {A} msg.

Definition rlogf (lvl : Level) (fmt : string) (rt : Runtime) : Runtime :=
  mkRuntime (contexts rt) (running rt) (rlog rt ++ [(lvl, fmt)]).

(** Calling the cancel function of context [ctx]. *)
Definition cancel (ctx : nat) (rt : Runtime) : Runtime :=
  mkRuntime (<[ctx := true]> (contexts rt)) (running rt) (rlog rt).

(** [startConsumer], lines 66-96: the error, the receiver afterwards,
    the runtime afterwards. *)
Definition startConsumer (lim : Z) (goka : Goka) (q : KafkaReceiver) (msgs : Consumer)
    (maxRetries : Z) (retryExpirationCalc : Z -> Z) (rt : Runtime)
    : option string * KafkaReceiver * Runtime :=
  let graph :=
    mkGraph (group q) (topic q)
      (kafkaMsgProcessor lim goka msgs (brokers q) (errorTopic q) maxRetries retryExpirationCalc) in
  let rt := rlogf LPrint "Starting goka processor" rt in
  match NewProcessor goka (brokers q) (group q) (topic q) with
  | Some err => (Some err, q, rt)
  | None =>
      let ctx := length (contexts rt) in
      let q := mkKafkaReceiver (brokers q) (group q) (topic q) (errorTopic q) (Some ctx) in
      (None, q, mkRuntime (contexts rt ++ [false]) (running rt ++ [(ctx, graph)]) (rlog rt))
  end.

(** [Shutdown], lines 98-104: calling the nil function panics. *)
Definition Shutdown (q : KafkaReceiver) (rt : Runtime) : Result (option string) * Runtime :=
  let rt := rlogf LPrint "Shutting down goka processors" rt in
  match shutdown q with
  | None => (Panic "invalid memory address or nil pointer dereference", rt)
  | Some ctx => (Ret None, cancel ctx rt)
  end.

(** [ConnectCustomRetry], lines 46-64.  On the error path the deferred
    [q.Shutdown(logger)] runs after the result is set to [err]; a panic in
    it replaces the return.  The [done] channel is not used by the body. *)
Definition ConnectCustomRetry (lim : Z) (goka : Goka) (q : KafkaReceiver) (msgs : Consumer)
    (maxRetries : Z) (retryFuncTime : Z -> Z) (rt : Runtime)
    : Result (option string) * KafkaReceiver * Runtime :=
  match startConsumer lim goka q msgs maxRetries retryFuncTime rt with
  | (Some err, q, rt) =>
      let rt := rlogf LError "error and shutting down: %v" rt in
      match Shutdown q rt with
      | (Ret _, rt) => (Ret (Some err), q, rt)
      | (Panic m, rt) => (Panic m, q, rt)
      end
  | (None, q, rt) => (Ret None, q, rt)
  end.

(** The function literal of [Connect], lines 40-42:
    [1000 * int(math.Pow(2.0, float64(retry)))]. *)
Definition Connect_retryFuncTime (indef : Z) (retry : Z) : Z :=
  int_mul 1000 (pow2_int indef retry).

(** [Connect], lines 31-44. *)
Definition Connect (lim indef : Z) (goka : Goka) (q : KafkaReceiver) (msgs : Consumer)
    (rt : Runtime) : Result (option string) * KafkaReceiver * Runtime :=
  ConnectCustomRetry lim goka q msgs 3 (Connect_retryFuncTime indef) rt.

(** ** Auxiliary notions used by the statements *)

Definition call_val (c : Call) : bool :=
  match c with CallAck => true | CallNack => false end.

(** A run of sends on one channel. *)
Definition sends (vs : list bool) (c : Chan) : Chan :=
  foldl (fun c v => chan_send v c) c vs.

(** The values a receiver will get, in order. *)
Definition pending (c : Chan) : list bool := buf c ++ sendq c.

(** Senders only wait on a full buffer. *)
Definition chan_wf (c : Chan) : Prop :=
  sendq c = [] \/ cap c <= Z.of_nat (length (buf c)).

(** The timers started so far. *)
Fixpoint timers (tr : list Event) : list Z :=
  match tr with
  | [] => []
  | EvTimer d :: tr => d :: timers tr
  | _ :: tr => timers tr
  end.

(** The events of [n] consecutive retries, the first one counted [retries]. *)
Fixpoint retry_evs (calc : Z -> Z) (db : DataBlock) (retries : Z) (n : nat) : list Event :=
  match n with
  | O => []
  | S n =>
      [EvLog LDebug "Waiting on retry %v for %v";
       EvTimer (int_mul (calc retries) Millisecond);
       EvLog LPrint "Retry %v";
       EvOutput db] ++ retry_evs calc db (retries + 1) n
  end.

(** The events of the dead-letter branch. *)
Definition dead_evs (goka : Goka) (bs : list string) (tp : string) (data : list byte)
    : list Event :=
  EvLog LWarn "Too much retries, not possible to process the message (copy at %v)" ::
  match NewEmitter goka bs tp with
  | Some err =>
      [EvNewEmitter bs tp (Some err);
       EvLog LError "Error creating publisher to track error message: %v"]
  | None =>
      EvNewEmitter bs tp None ::
      match EmitSync goka tp "" data with
      | Some err =>
          [EvEmitSync tp "" data (Some err);
           EvLog LError "Error publishing error message (potentially lost): %v";
           EvFinish tp]
      | None =>
          [EvEmitSync tp "" data None;
           EvLog LInfo "Error message reported correctly to %v";
           EvFinish tp]
      end
  end.

(** How a run of the loop can end: blocked on the receive, on an Ack, or
    through the dead-letter branch. *)
Inductive loop_end (goka : Goka) (bs : list string) (tp : string) (data : list byte)
    : Outcome -> list Event -> Prop :=
| end_blocked : loop_end goka bs tp data Blocked []
| end_acked : loop_end goka bs tp data Returned [EvLog LPrint "Success on message process"]
| end_dead : loop_end goka bs tp data Returned (dead_evs goka bs tp data).

(** Operations on one channel, as seen from outside, and whether some
    send of a schedule finds the buffer full. *)
Inductive ChanOp : Type := OpSend (v : bool) | OpRecv.

Fixpoint count_sends (ops : list ChanOp) : nat :=
  match ops with
  | [] => O
  | OpSend _ :: ops => S (count_sends ops)
  | OpRecv :: ops => count_sends ops
  end.

Fixpoint never_blocks (ops : list ChanOp) (c : Chan) : bool :=
  match ops with
  | [] => true
  | OpSend v :: ops =>
      let c' := chan_send v c in
      negb (chan_blocked c') && never_blocks ops c'
  | OpRecv :: ops =>
      match chan_recv c with
      | Some (_, c') => never_blocks ops c'
      | None => never_blocks ops c
      end
  end.

(** ** Concrete collaborators, for the examples *)

Definition goka_up : Goka :=
  mkGoka (fun _ _ _ => None) (fun _ _ => None) (fun _ _ _ => None).

Definition goka_down : Goka :=
  mkGoka (fun _ _ _ => Some "kafka: client has run out of available brokers")
         (fun _ _ => None) (fun _ _ _ => None).

Definition goka_no_emitter : Goka :=
  mkGoka (fun _ _ _ => None)
         (fun _ _ => Some "kafka: client has run out of available brokers")
         (fun _ _ _ => None).

Definition goka_no_publish : Goka :=
  mkGoka (fun _ _ _ => None) (fun _ _ => None)
         (fun _ _ _ => Some "kafka server: request timed out").

Definition always_nack : Consumer := fun _ _ => [CallNack].
Definition always_ack : Consumer := fun _ _ => [CallAck].

(** Rejects the first item twice and never answers again. *)
Definition nack_twice_then_silent : Consumer :=
  fun n _ => match n with O => [CallNack; CallNack] | S _ => [] end.

(** Rejects the first three items and accepts from the fourth on. *)
Definition nack_three_then_ack : Consumer :=
  fun n _ => if (n <? 3)%nat then [CallNack] else [CallAck].

Definition no_backoff : Z -> Z := fun _ => 0.

Definition world0 : World := mkWorld [] [].
Definition rt0 : Runtime := mkRuntime [] [] [].

(** ** Further notions for the statements on whole runs *)

(** The emitters finished so far, by topic. *)
Fixpoint finishes (tr : list Event) : list string :=
  match tr with
  | [] => []
  | EvFinish tp :: tr => tp :: finishes tr
  | _ :: tr => finishes tr
  end.

(** The durations, in nanoseconds, of the timers of the first [n]
    retries: [time.Duration(calc(i)) * time.Millisecond] for i = 0 .. n-1. *)
Definition backoffs (calc : Z -> Z) (n : nat) : list Z :=
  map (fun i => int_mul (calc (Z.of_nat i)) Millisecond) (seq 0 n).

(** Calls both closures of every item, Nack first. *)
Definition nack_and_ack : Consumer := fun _ _ => [CallNack; CallAck].

(** Never calls anything. *)
Definition silent : Consumer := fun _ _ => [].

(** * Properties *)

(** ** Integers *)

Ltac int_unfold :=
  unfold is_int, wrap in *;
  change int_min with (-9223372036854775808) in *;
  change int_max with 9223372036854775807 in *;
  change (2 ^ 64) with 18446744073709551616 in *.

Ltac lim_unfold := change chan_max_amd64 with 281474976710560 in *.

Lemma wrap_id (z : Z) : is_int z -> wrap z = z.
Proof.
  intros Hz. int_unfold. rewrite Z.mod_small; lia.
Qed.

Lemma int_add_id (a b : Z) : is_int (a + b) -> int_add a b = a + b.
Proof. apply wrap_id. Qed.

Lemma int_mul_id (a b : Z) : is_int (a * b) -> int_mul a b = a * b.
Proof. apply wrap_id. Qed.

Lemma wrap_is_int (z : Z) : is_int (wrap z).
Proof.
  int_unfold.
  pose proof (Z.mod_pos_bound (z - -9223372036854775808) 18446744073709551616). lia.
Qed.

(** The size [maxRetries+1] is negative exactly at the two ends of
    the range. *)
Lemma size_nonneg (maxRetries : Z) :
  is_int maxRetries ->
  0 <= int_add maxRetries 1 ->
  int_add maxRetries 1 = maxRetries + 1 /\ -1 <= maxRetries < int_max.
Proof.
  intros Hi Hs.
  destruct (Z.eq_dec maxRetries int_max) as [->|Hne].
  - exfalso. vm_compute in Hs. apply Hs. reflexivity.
  - assert (is_int (maxRetries + 1)) by (int_unfold; lia).
    rewrite int_add_id in * by assumption. int_unfold. lia.
Qed.

(** ** Traces *)

Lemma deliveries_app (a b : list Event) :
  deliveries (a ++ b) = deliveries a ++ deliveries b.
Proof. induction a as [|[] a IH]; simpl; congruence. Qed.

Lemma emits_app (a b : list Event) : emits (a ++ b) = emits a ++ emits b.
Proof. induction a as [|[] a IH]; simpl; congruence. Qed.

Lemma published_app (a b : list Event) :
  published (a ++ b) = published a ++ published b.
Proof.
  induction a as [|e a IH]; simpl; [reflexivity|].
  destruct e as [| | | | |tp k v [err|]|]; simpl; congruence.
Qed.

Lemma makes_app (a b : list Event) : makes (a ++ b) = makes a ++ makes b.
Proof. induction a as [|[] a IH]; simpl; congruence. Qed.

Lemma timers_app (a b : list Event) : timers (a ++ b) = timers a ++ timers b.
Proof. induction a as [|[] a IH]; simpl; congruence. Qed.

Lemma emitters_app (a b : list Event) : emitters (a ++ b) = emitters a ++ emitters b.
Proof. induction a as [|[] a IH]; simpl; congruence. Qed.

(** ** Channels *)



Lemma chan_send_pending (v : bool) (c : Chan) :
  chan_wf c ->
  pending (chan_send v c) = pending c ++ [v] /\ chan_wf (chan_send v c).
Proof.
  unfold chan_wf, pending, chan_send. intros Hwf.
  destruct (Z.ltb_spec (Z.of_nat (length (buf c))) (cap c)) as [Hlt|Hge]; simpl.
  - destruct Hwf as [Hq|Hfull]; [|lia].
    rewrite Hq, !app_nil_r. auto.
  - rewrite app_assoc. auto.
Qed.

Lemma sends_pending (vs : list bool) (c : Chan) :
  chan_wf c ->
  pending (sends vs c) = pending c ++ vs /\ chan_wf (sends vs c).
Proof.
  revert c. induction vs as [|v vs IH]; intros c Hwf.
  - change (sends [] c) with c. rewrite app_nil_r. auto.
  - change (sends (v :: vs) c) with (sends vs (chan_send v c)).
    destruct (chan_send_pending v c Hwf) as [Hp Hwf'].
    destruct (IH _ Hwf') as [Hp' Hwf'']. split; [|exact Hwf''].
    rewrite Hp', Hp, <- app_assoc. reflexivity.
Qed.

Lemma chan_recv_pending (c : Chan) (v : bool) (p : list bool) :
  pending c = v :: p -> exists c', chan_recv c = Some (v, c') /\ cap c' = cap c.
Proof.
  unfold pending, chan_recv.
  destruct (buf c) as [|b bs], (sendq c) as [|s q]; simpl; intros H;
    inversion H; subst; eexists; split; reflexivity.
Qed.

Lemma make_chan_wf (lim size : Z) (c : Chan) :
  make_chan lim size = Some c ->
  c = mkChan size [] [] /\ 0 <= size <= lim /\ chan_wf c.
Proof.
  unfold make_chan.
  destruct (Z.ltb_spec size 0) as [Hneg|Hpos]; [discriminate|].
  destruct (Z.ltb_spec lim size) as [Hbig|Hfit]; [discriminate|].
  intros Hc. inversion Hc.
  repeat split; [assumption..|]. left. reflexivity.
Qed.

(** ** The store and the trace *)

Lemma trace_send (ch : nat) (v : bool) (w : World) : trace (send ch v w) = trace w.
Proof. unfold send. destruct (chans w !! ch); reflexivity. Qed.

Lemma trace_calls (db : DataBlock) (cs : list Call) (w : World) :
  trace (foldl (fun w c => call_closure (callee c db) w) w cs) = trace w.
Proof.
  revert w. induction cs as [|c cs IH]; intros w; simpl; [reflexivity|].
  rewrite IH. apply trace_send.
Qed.

Lemma trace_send_output (output : Consumer) (db : DataBlock) (w : World) :
  trace (send_output output db w) = trace w ++ [EvOutput db].
Proof. unfold send_output. rewrite trace_calls. reflexivity. Qed.

Lemma trace_recv (ch : nat) (v : bool) (w w' : World) :
  recv ch w = Some (v, w') -> trace w' = trace w.
Proof.
  unfold recv. destruct (chans w !! ch) as [c|]; [|discriminate].
  destruct (chan_recv c) as [[v' c']|]; [|discriminate].
  intros H. inversion H. reflexivity.
Qed.

Lemma deadLetter_spec (goka : Goka) (bs : list string) (tp : string)
    (data : list byte) (w : World) :
  deadLetter goka bs tp data w
  = (Returned, mkWorld (chans w) (trace w ++ dead_evs goka bs tp data)).
Proof.
  unfold deadLetter, dead_evs, logf, emit.
  destruct (NewEmitter goka bs tp); simpl.
  - rewrite <- !app_assoc. reflexivity.
  - destruct (EmitSync goka tp "" data); simpl; rewrite <- !app_assoc; reflexivity.
Qed.

Lemma loop_S (goka : Goka) (output : Consumer) (bs : list string) (tp : string)
    (maxRetries : Z) (calc : Z -> Z) (fuel : nat) (data : list byte) (result : nat)
    (db : DataBlock) (retries : Z) (w : World) :
  loop goka output bs tp maxRetries calc (S fuel) data result db retries w =
  match recv result w with
  | None => Some (Blocked, w)
  | Some (res, w) =>
      if res then Some (Returned, logf LPrint "Success on message process" w)
      else if retries >=? maxRetries then Some (deadLetter goka bs tp data w)
      else
        loop goka output bs tp maxRetries calc fuel data result db (int_add retries 1)
          (send_output output db
             (logf LPrint "Retry %v"
                (emit (EvTimer (int_mul (calc retries) Millisecond))
                   (logf LDebug "Waiting on retry %v for %v" w))))
  end.
Proof. reflexivity. Qed.

(** ** Every run of the callback ends, and how *)

Section Runs.

Variable goka : Goka.
Variable output : Consumer.
Variable bs : list string.
Variable tp : string.
Variable maxRetries : Z.
Variable calc : Z -> Z.
Hypothesis Hmax : maxRetries <= int_max.

(** With one unit of fuel per retry still allowed, and one more, the loop
    ends: after some retries it blocks, sees an Ack, or dead-letters. *)
Lemma loop_runs (fuel : nat) :
  forall (data : list byte) (result : nat) (db : DataBlock) (retries : Z) (w : World),
    int_min <= retries ->
    (Z.to_nat (maxRetries - retries) < fuel)%nat ->
    exists (n : nat) (o : Outcome) (w' : World) (tail : list Event),
      loop goka output bs tp maxRetries calc fuel data result db retries w = Some (o, w')
      /\ trace w' = trace w ++ retry_evs calc db retries n ++ tail
      /\ loop_end goka bs tp data o tail
      /\ (Z.of_nat n <= Z.max 0 (maxRetries - retries)).
Proof.
  induction fuel as [|fuel IH]; intros data result db retries w Hlo Hfuel; [lia|].
  rewrite loop_S.
  destruct (recv result w) as [[res w1]|] eqn:Hrecv.
  - pose proof (trace_recv _ _ _ _ Hrecv) as Htr.
    destruct res.
    + exists O, Returned. eexists. eexists. split; [reflexivity|].
      simpl. rewrite Htr. split; [reflexivity|]. split; [constructor|lia].
    + rewrite Z.geb_leb. destruct (Z.leb_spec maxRetries retries) as [Hge|Hlt].
      * exists O, Returned. rewrite deadLetter_spec. eexists. eexists.
        split; [reflexivity|]. simpl. rewrite Htr.
        split; [reflexivity|]. split; [constructor|lia].
      * assert (Hint : int_add retries 1 = retries + 1).
        { apply int_add_id. int_unfold. lia. }
        rewrite Hint.
        edestruct (IH data result db (retries + 1)) as (n & o & w' & tail & Hl & Ht & He & Hn).
        { lia. } { lia. }
        exists (S n), o, w', tail. split; [exact Hl|].
        split; [|split; [exact He|lia]].
        rewrite Ht, trace_send_output. simpl. rewrite Htr.
        rewrite <- !app_assoc. reflexivity.
  - exists O, Blocked, w, []. split; [reflexivity|].
    simpl. rewrite app_nil_r. split; [reflexivity|]. split; [constructor|lia].
Qed.

End Runs.

(** ** What the retries and the dead-letter branch leave in the trace *)

Lemma deliveries_retry_evs (calc : Z -> Z) (db : DataBlock) (n : nat) :
  forall retries, deliveries (retry_evs calc db retries n) = replicate n db.
Proof. induction n as [|n IH]; intros retries; simpl; [|rewrite IH]; reflexivity. Qed.

Lemma emits_retry_evs (calc : Z -> Z) (db : DataBlock) (n : nat) :
  forall retries, emits (retry_evs calc db retries n) = [].
Proof. induction n as [|n IH]; intros retries; simpl; [|rewrite IH]; reflexivity. Qed.

Lemma makes_retry_evs (calc : Z -> Z) (db : DataBlock) (n : nat) :
  forall retries, makes (retry_evs calc db retries n) = [].
Proof. induction n as [|n IH]; intros retries; simpl; [|rewrite IH]; reflexivity. Qed.

Lemma emitters_retry_evs (calc : Z -> Z) (db : DataBlock) (n : nat) :
  forall retries, emitters (retry_evs calc db retries n) = [].
Proof. induction n as [|n IH]; intros retries; simpl; [|rewrite IH]; reflexivity. Qed.

Lemma published_retry_evs (calc : Z -> Z) (db : DataBlock) (n : nat) :
  forall retries, published (retry_evs calc db retries n) = [].
Proof. induction n as [|n IH]; intros retries; simpl; [|rewrite IH]; reflexivity. Qed.

Lemma timers_retry_evs (calc : Z -> Z) (db : DataBlock) (n : nat) :
  forall retries, length (timers (retry_evs calc db retries n)) = n.
Proof. induction n as [|n IH]; intros retries; simpl; [|rewrite IH]; reflexivity. Qed.

Lemma deliveries_dead_evs (goka : Goka) (bs : list string) (tp : string) (data : list byte) :
  deliveries (dead_evs goka bs tp data) = [].
Proof.
  unfold dead_evs. destruct (NewEmitter goka bs tp); [reflexivity|].
  destruct (EmitSync goka tp "" data); reflexivity.
Qed.

Lemma makes_dead_evs (goka : Goka) (bs : list string) (tp : string) (data : list byte) :
  makes (dead_evs goka bs tp data) = [].
Proof.
  unfold dead_evs. destruct (NewEmitter goka bs tp); [reflexivity|].
  destruct (EmitSync goka tp "" data); reflexivity.
Qed.

Lemma loop_end_deliveries (goka : Goka) (bs : list string) (tp : string)
    (data : list byte) (o : Outcome) (tail : list Event) :
  loop_end goka bs tp data o tail -> deliveries tail = [] /\ makes tail = [].
Proof.
  destruct 1; [split; reflexivity..|].
  split; [apply deliveries_dead_evs|apply makes_dead_evs].
Qed.

(** ** The store *)

Lemma world_eq (a b : World) : chans a = chans b -> trace a = trace b -> a = b.
Proof. destruct a, b; simpl; intros -> ->; reflexivity. Qed.

Lemma make_ok (lim size : Z) (w : World) :
  0 <= size <= lim ->
  make lim size w
  = Some (length (chans w),
          mkWorld (chans w ++ [mkChan size [] []])
                  (trace w ++ [EvMake (length (chans w)) size])).
Proof.
  intros Hs. unfold make, make_chan.
  destruct (Z.ltb_spec size 0); [lia|].
  destruct (Z.ltb_spec lim size); [lia|reflexivity].
Qed.

Lemma make_panics (lim size : Z) (w : World) :
  size < 0 \/ lim < size -> make lim size w = None.
Proof.
  intros Hs. unfold make, make_chan.
  destruct (Z.ltb_spec size 0); [reflexivity|].
  destruct (Z.ltb_spec lim size); [reflexivity|lia].
Qed.

Lemma callee_bound (db : DataBlock) (ch : nat) (c : Call) :
  Ack db = mkClosure ch true -> Nack db = mkClosure ch false ->
  callee c db = mkClosure ch (call_val c).
Proof. intros Ha Hn. destruct c; simpl; assumption. Qed.

(** The calls of the application on an item all land on the channel
    its two closures captured. *)
Lemma calls_chans (db : DataBlock) (ch : nat) :
  Ack db = mkClosure ch true -> Nack db = mkClosure ch false ->
  forall (cs : list Call) (w : World) (c : Chan),
    chans w !! ch = Some c ->
    chans (foldl (fun w c => call_closure (callee c db) w) w cs)
    = <[ch := sends (map call_val cs) c]> (chans w).
Proof.
  intros Ha Hn. induction cs as [|x cs IH]; intros w c Hc.
  - simpl. symmetry. apply list_insert_id. exact Hc.
  - change (sends (map call_val (x :: cs)) c)
      with (sends (map call_val cs) (chan_send (call_val x) c)).
    assert (Hstep : call_closure (callee x db) w
                    = mkWorld (<[ch := chan_send (call_val x) c]> (chans w)) (trace w)).
    { rewrite (callee_bound db ch x Ha Hn). unfold call_closure, send.
      cbn [cl_chan cl_val]. rewrite Hc. reflexivity. }
    cbn [foldl]. rewrite Hstep.
    rewrite (IH _ (chan_send (call_val x) c)).
    + cbn [chans]. apply list_insert_insert_eq.
    + cbn [chans]. apply list_lookup_insert_eq. eapply lookup_lt_Some. exact Hc.
Qed.

Lemma send_output_chans (output : Consumer) (db : DataBlock) (ch : nat) (w : World) (c : Chan) :
  Ack db = mkClosure ch true -> Nack db = mkClosure ch false ->
  chans w !! ch = Some c ->
  chans (send_output output db w)
  = <[ch := sends (map call_val (output (length (deliveries (trace w))) db)) c]> (chans w).
Proof.
  intros Ha Hn Hc. unfold send_output.
  rewrite (calls_chans db ch Ha Hn _ _ c); [reflexivity|exact Hc].
Qed.

Lemma recv_ok (ch : nat) (w : World) (c c' : Chan) (v : bool) :
  chans w !! ch = Some c -> chan_recv c = Some (v, c') ->
  recv ch w = Some (v, mkWorld (<[ch := c']> (chans w)) (trace w)).
Proof. intros Hc Hr. unfold recv. rewrite Hc, Hr. reflexivity. Qed.

Lemma kafkaMsgProcessor_unfold (lim : Z) (goka : Goka) (output : Consumer) (bs : list string)
    (tp : string) (maxRetries : Z) (calc : Z -> Z) (msg : list byte) (w : World) :
  kafkaMsgProcessor lim goka output bs tp maxRetries calc msg w =
  match make lim (int_add maxRetries 1) (logf LPrint "Message received" w) with
  | None => Some (Panicked "makechan: size out of range", logf LPrint "Message received" w)
  | Some (result, w1) =>
      loop goka output bs tp maxRetries calc (S (Z.to_nat maxRetries)) msg result
        (mkDataBlock msg (mkClosure result true) (mkClosure result false)) 0
        (send_output output
           (mkDataBlock msg (mkClosure result true) (mkClosure result false)) w1)
  end.
Proof. reflexivity. Qed.

(** Every call of the callback ends.  Either the channel cannot be made
    and the callback panics before anything else, or it makes one channel,
    puts the item on the output channel, retries some number of times and
    ends as the loop ends. *)
Lemma callback_runs (lim : Z) (goka : Goka) (output : Consumer) (bs : list string) (tp : string)
    (maxRetries : Z) (calc : Z -> Z) (msg : list byte) (w : World) :
  is_int maxRetries ->
  ((int_add maxRetries 1 < 0 \/ lim < int_add maxRetries 1) /\
   kafkaMsgProcessor lim goka output bs tp maxRetries calc msg w
   = Some (Panicked "makechan: size out of range", logf LPrint "Message received" w))
  \/
  (0 <= int_add maxRetries 1 <= lim /\
   exists (n : nat) (o : Outcome) (w' : World) (tail : list Event),
     kafkaMsgProcessor lim goka output bs tp maxRetries calc msg w = Some (o, w')
     /\ trace w'
        = trace w
          ++ [EvLog LPrint "Message received";
              EvMake (length (chans w)) (maxRetries + 1);
              EvOutput (mkDataBlock msg (mkClosure (length (chans w)) true)
                                        (mkClosure (length (chans w)) false))]
          ++ retry_evs calc
               (mkDataBlock msg (mkClosure (length (chans w)) true)
                                (mkClosure (length (chans w)) false)) 0 n
          ++ tail
     /\ loop_end goka bs tp msg o tail
     /\ Z.of_nat n <= Z.max 0 maxRetries).
Proof.
  intros Hint. rewrite kafkaMsgProcessor_unfold.
  destruct (Z.ltb_spec (int_add maxRetries 1) 0) as [Hneg|Hpos];
    [|destruct (Z.ltb_spec lim (int_add maxRetries 1)) as [Hbig|Hfit]].
  - left. rewrite make_panics by (left; assumption). auto.
  - left. rewrite make_panics by (right; assumption). auto.
  - right. split; [split; assumption|].
    destruct (size_nonneg maxRetries Hint Hpos) as [Hsz Hrange].
    rewrite make_ok by (split; assumption). cbn [logf emit chans trace].
    set (ch := length (chans w)).
    set (db := mkDataBlock msg (mkClosure ch true) (mkClosure ch false)).
    edestruct (loop_runs goka output bs tp maxRetries calc) with (retries := 0)
      as (n & o & w' & tail & Hl & Ht & He & Hn).
    { destruct Hint. eassumption. }
    { int_unfold. lia. }
    { rewrite Z.sub_0_r. apply Nat.lt_succ_diag_r. }
    exists n, o, w', tail. split; [exact Hl|].
    split; [|split; [exact He|rewrite Z.sub_0_r in Hn; exact Hn]].
    rewrite Ht, trace_send_output. cbn [trace]. rewrite Hsz.
    rewrite <- !app_assoc. reflexivity.
Qed.

(** The callback is total on every retry bound that is a Go int. *)
Lemma kafkaMsgProcessor_total (lim : Z) (goka : Goka) (output : Consumer) (bs : list string)
    (tp : string) (maxRetries : Z) (calc : Z -> Z) (msg : list byte) (w : World) :
  is_int maxRetries ->
  exists (o : Outcome) (w' : World),
    kafkaMsgProcessor lim goka output bs tp maxRetries calc msg w = Some (o, w').
Proof.
  intros Hint.
  destruct (callback_runs lim goka output bs tp maxRetries calc msg w Hint)
    as [[_ Hp]|[_ (n & o & w' & tail & Hrun & _)]]; eauto.
Qed.

(** ** The scenarios of the specification, run on the model *)

(** maxRetries = 3, three Nacks then an Ack: four deliveries, three timers
    of 1s, 2s and 4s under the default policy, nothing dead-lettered. *)
Example scenario_recovers :
  exists w',
    kafkaMsgProcessor chan_max_amd64 goka_up nack_three_then_ack ["kafka:9092"] "orders.errors" 3
      (Connect_retryFuncTime int_min) [x01; x02] world0 = Some (Returned, w')
    /\ length (deliveries (trace w')) = 4%nat
    /\ timers (trace w') = [1000000000; 2000000000; 4000000000]
    /\ emitters (trace w') = [] /\ emits (trace w') = [].
Proof. eexists. split; [vm_compute; reflexivity|]. repeat split. Qed.

(** maxRetries = 0, one Nack: one delivery, one dead-letter record equal
    to the payload. *)
Example scenario_no_retry :
  exists w',
    kafkaMsgProcessor chan_max_amd64 goka_up always_nack ["kafka:9092"] "orders.errors" 0
      no_backoff [x01; x02] world0 = Some (Returned, w')
    /\ length (deliveries (trace w')) = 1%nat
    /\ timers (trace w') = []
    /\ published (trace w') = [("orders.errors", "", [x01; x02])].
Proof. eexists. split; [vm_compute; reflexivity|]. repeat split. Qed.

(** The publish always fails, maxRetries = 1, every delivery rejected: two
    deliveries, nothing accepted by the dead-letter topic, the callback
    returns. *)
Example scenario_lost :
  exists w',
    kafkaMsgProcessor chan_max_amd64 goka_no_publish always_nack ["kafka:9092"] "orders.errors" 1
      no_backoff [x01; x02] world0 = Some (Returned, w')
    /\ length (deliveries (trace w')) = 2%nat
    /\ length (emits (trace w')) = 1%nat
    /\ published (trace w') = [].
Proof. eexists. split; [vm_compute; reflexivity|]. repeat split. Qed.

(** A consumer that calls neither closure leaves the callback blocked. *)
Example scenario_stalls :
  exists w',
    kafkaMsgProcessor chan_max_amd64 goka_up (fun _ _ => []) ["kafka:9092"] "orders.errors" 3
      no_backoff [x01; x02] world0 = Some (Blocked, w')
    /\ length (deliveries (trace w')) = 1%nat.
Proof. eexists. split; [vm_compute; reflexivity|]. reflexivity. Qed.

(** ** A consumer that rejects every delivery *)

Section AlwaysNack.

Variable goka : Goka.
Variable output : Consumer.
Variable bs : list string.
Variable tp : string.
Variable maxRetries : Z.
Variable calc : Z -> Z.
Variable data : list byte.
Variable result : nat.
Variable db : DataBlock.
Variable size : Z.

Hypothesis Hmax : maxRetries <= int_max.
Hypothesis Hsize : 1 <= size.
Hypothesis Hack : Ack db = mkClosure result true.
Hypothesis Hnack : Nack db = mkClosure result false.
Hypothesis Hout : forall n d, output n d = [CallNack].

(** At the head of each turn the one Nack of the last delivery waits in
    the buffer; the loop retries until the budget is spent and then takes
    the dead-letter branch. *)
Lemma loop_all_nack (fuel : nat) :
  forall (retries : Z) (w : World),
    int_min <= retries ->
    (Z.to_nat (maxRetries - retries) < fuel)%nat ->
    chans w !! result = Some (mkChan size [false] []) ->
    loop goka output bs tp maxRetries calc fuel data result db retries w
    = Some (deadLetter goka bs tp data
              (mkWorld (<[result := mkChan size [] []]> (chans w))
                       (trace w ++ retry_evs calc db retries
                                     (Z.to_nat (maxRetries - retries))))).
Proof.
  induction fuel as [|fuel IH]; intros retries w Hlo Hfuel Hch; [lia|].
  rewrite loop_S.
  rewrite (recv_ok result w _ (mkChan size [] []) false Hch) by reflexivity.
  rewrite Z.geb_leb. destruct (Z.leb_spec maxRetries retries) as [Hge|Hlt].
  - replace (Z.to_nat (maxRetries - retries)) with O by lia.
    simpl. rewrite app_nil_r. reflexivity.
  - assert (Hint : int_add retries 1 = retries + 1).
    { apply int_add_id. int_unfold. lia. }
    assert (Hlen : (result < length (chans w))%nat).
    { eapply lookup_lt_Some. exact Hch. }
    rewrite Hint.
    match goal with |- loop _ _ _ _ _ _ _ _ _ _ _ ?w2 = _ => set (w2' := w2) end.
    assert (Hch2 : chans w2' = <[result := mkChan size [false] []]> (chans w)).
    { unfold w2'.
      rewrite (send_output_chans output db result _ (mkChan size [] []) Hack Hnack).
      - rewrite Hout. cbn [logf emit chans map call_val sends foldl].
        rewrite list_insert_insert_eq. f_equal.
        unfold chan_send. cbn [buf cap length sendq].
        destruct (Z.ltb_spec (Z.of_nat 0) size); [reflexivity|lia].
      - cbn [logf emit chans]. apply list_lookup_insert_eq. exact Hlen. }
    rewrite (IH (retries + 1) w2').
    + f_equal. f_equal. apply world_eq; cbn [chans trace].
      * rewrite Hch2. apply list_insert_insert_eq.
      * unfold w2'. rewrite trace_send_output. cbn [logf emit trace].
        replace (Z.to_nat (maxRetries - retries))
          with (S (Z.to_nat (maxRetries - (retries + 1)))) by lia.
        simpl. rewrite <- !app_assoc. reflexivity.
    + lia.
    + lia.
    + rewrite Hch2. apply list_lookup_insert_eq. exact Hlen.
Qed.

End AlwaysNack.

(** C1 (amended).  For every maxRetries = k >= 0 for which the runtime makes
    a channel of capacity k+1 (k + 1 <= lim, and k below int_max so that
    k+1 is an int) and a consumer that answers every delivery with one
    Nack, the callback returns after putting the same Work Item on the
    output channel exactly k+1 times, with k timers in between, and only
    then runs the dead-letter branch, once; with the emitter created and the
    emit succeeding, that branch publishes exactly one record, the payload,
    on the dead-letter topic.  With k = 0 there is one delivery and no
    timer. *)
Theorem nack_exhausts_then_dead_letters
    (lim : Z) (goka : Goka) (output : Consumer) (bs : list string) (tp : string)
    (k : Z) (calc : Z -> Z) (msg : list byte) (w : World) :
  0 <= k < int_max ->
  k + 1 <= lim ->
  (forall n d, output n d = [CallNack]) ->
  exists (w' : World) (db : DataBlock) (pre : list Event),
    kafkaMsgProcessor lim goka output bs tp k calc msg w = Some (Returned, w')
    /\ Data db = msg
    /\ trace w' = trace w ++ pre ++ dead_evs goka bs tp msg
    /\ deliveries pre = replicate (Z.to_nat (k + 1)) db
    /\ length (timers pre) = Z.to_nat k
    /\ emitters pre = [] /\ emits pre = []
    /\ deliveries (dead_evs goka bs tp msg) = []
    /\ (NewEmitter goka bs tp = None -> EmitSync goka tp "" msg = None ->
        emits (dead_evs goka bs tp msg) = [(tp, "", msg)]
        /\ published (dead_evs goka bs tp msg) = [(tp, "", msg)]).
Proof.
  intros Hk Hlim Hout.
  assert (Hsz : int_add k 1 = k + 1) by (apply int_add_id; int_unfold; lia).
  rewrite kafkaMsgProcessor_unfold, Hsz, make_ok by lia.
  cbn [logf emit chans trace].
  set (ch := length (chans w)).
  set (db := mkDataBlock msg (mkClosure ch true) (mkClosure ch false)).
  set (w1 := mkWorld (chans w ++ [mkChan (k + 1) [] []]) _).
  assert (Hch1 : chans w1 !! ch = Some (mkChan (k + 1) [] [])).
  { unfold w1, ch. cbn [chans]. apply list_lookup_middle. reflexivity. }
  assert (Hch2 : chans (send_output output db w1) !! ch = Some (mkChan (k + 1) [false] [])).
  { rewrite (send_output_chans output db ch w1 _ eq_refl eq_refl Hch1), Hout.
    cbn [map call_val sends foldl].
    rewrite list_lookup_insert_eq by (eapply lookup_lt_Some; exact Hch1).
    f_equal. unfold chan_send. cbn [buf cap length sendq].
    destruct (Z.ltb_spec (Z.of_nat 0) (k + 1)); [reflexivity|lia]. }
  rewrite (loop_all_nack goka output bs tp k calc msg ch db (k + 1));
    [ | int_unfold; lia | lia | reflexivity | reflexivity | exact Hout
      | int_unfold; lia | rewrite Z.sub_0_r; lia | exact Hch2 ].
  rewrite deadLetter_spec. cbn [chans trace]. rewrite Z.sub_0_r.
  eexists. exists db.
  exists ([EvLog LPrint "Message received"; EvMake ch (k + 1); EvOutput db]
          ++ retry_evs calc db 0 (Z.to_nat k)).
  split; [reflexivity|]. split; [reflexivity|]. cbn [trace].
  split.
  { rewrite trace_send_output. unfold w1. cbn [trace].
    rewrite <- !app_assoc. reflexivity. }
  rewrite deliveries_app, timers_app, emitters_app, emits_app.
  cbn [deliveries timers emitters emits app].
  rewrite deliveries_retry_evs, timers_retry_evs, emitters_retry_evs, emits_retry_evs.
  split. { replace (Z.to_nat (k + 1)) with (S (Z.to_nat k)) by lia. reflexivity. }
  split; [reflexivity|]. split; [reflexivity|]. split; [reflexivity|].
  split; [apply deliveries_dead_evs|].
  intros Hne Hes. unfold dead_evs. rewrite Hne, Hes. split; reflexivity.
Qed.

Lemma nack_exhausts_then_dead_letters_witness :
  0 <= 2 < int_max /\
  2 + 1 <= chan_max_amd64 /\
  (forall n d, always_nack n d = [CallNack]) /\
  exists (w' : World) (db : DataBlock) (pre : list Event),
    kafkaMsgProcessor chan_max_amd64 goka_up always_nack ["kafka:9092"] "orders.errors" 2 no_backoff
      [x01; x02] world0 = Some (Returned, w')
    /\ Data db = [x01; x02]
    /\ trace w' = trace world0 ++ pre
                  ++ dead_evs goka_up ["kafka:9092"] "orders.errors" [x01; x02]
    /\ deliveries pre = replicate (Z.to_nat (2 + 1)) db
    /\ length (timers pre) = Z.to_nat 2
    /\ emitters pre = [] /\ emits pre = []
    /\ deliveries (dead_evs goka_up ["kafka:9092"] "orders.errors" [x01; x02]) = []
    /\ (NewEmitter goka_up ["kafka:9092"] "orders.errors" = None ->
        EmitSync goka_up "orders.errors" "" [x01; x02] = None ->
        emits (dead_evs goka_up ["kafka:9092"] "orders.errors" [x01; x02])
        = [("orders.errors", "", [x01; x02])]
        /\ published (dead_evs goka_up ["kafka:9092"] "orders.errors" [x01; x02])
           = [("orders.errors", "", [x01; x02])]).
Proof.
  split; [int_unfold; lia|]. split; [lim_unfold; lia|].
  split; [intros; reflexivity|].
  apply (nack_exhausts_then_dead_letters chan_max_amd64 goka_up always_nack ["kafka:9092"]
           "orders.errors" 2 no_backoff [x01; x02] world0).
  - int_unfold; lia.
  - lim_unfold; lia.
  - intros; reflexivity.
Defined.

(** C1 as stated fails for large k.  On linux/amd64, at k = 2^62 the
    capacity k+1 is more than makechan lets through, and at k = int_max the
    size maxRetries+1 wraps around to a negative number: in both cases the
    callback panics in make, and nothing is delivered or dead-lettered. *)
Lemma nack_exhausts_counterexample :
  0 <= 2 ^ 62 <= int_max
  /\ kafkaMsgProcessor chan_max_amd64 goka_up always_nack ["kafka:9092"] "orders.errors"
       (2 ^ 62) no_backoff [x01; x02] world0
     = Some (Panicked "makechan: size out of range",
             mkWorld [] [EvLog LPrint "Message received"])
  /\ kafkaMsgProcessor chan_max_amd64 goka_up always_nack ["kafka:9092"] "orders.errors"
       int_max no_backoff [x01; x02] world0
     = Some (Panicked "makechan: size out of range",
             mkWorld [] [EvLog LPrint "Message received"])
  /\ deliveries [EvLog LPrint "Message received"] = []
  /\ emits [EvLog LPrint "Message received"] = [].
Proof.
  split; [int_unfold; lia|]. split; [vm_compute; reflexivity|].
  split; [vm_compute; reflexivity|]. split; reflexivity.
Qed.

(** ** A consumer that accepts the first delivery *)

(** C5.  For every payload, when the first thing the consumer calls on
    the delivered item is Ack, the callback puts exactly one Work Item on
    the output channel, asks for no emitter and publishes nothing, starts
    no timer, and returns right after the receive.  A first delivery takes
    place exactly when the channel can be made, that is when the capacity
    maxRetries + 1 is an int, not negative, and within what the runtime
    makes: -1 <= maxRetries < int_max and maxRetries + 1 <= lim. *)
Theorem ack_on_first_delivery
    (lim : Z) (goka : Goka) (output : Consumer) (bs : list string) (tp : string)
    (maxRetries : Z) (calc : Z -> Z) (msg : list byte) (w : World) :
  -1 <= maxRetries < int_max ->
  maxRetries + 1 <= lim ->
  (forall d, head (output (length (deliveries (trace w))) d) = Some CallAck) ->
  exists (w' : World) (db : DataBlock) (evs : list Event),
    kafkaMsgProcessor lim goka output bs tp maxRetries calc msg w = Some (Returned, w')
    /\ Data db = msg
    /\ trace w' = trace w ++ evs
    /\ evs = [EvLog LPrint "Message received";
              EvMake (length (chans w)) (maxRetries + 1);
              EvOutput db;
              EvLog LPrint "Success on message process"]
    /\ deliveries evs = [db]
    /\ emitters evs = [] /\ emits evs = [] /\ timers evs = [].
Proof.
  intros Hk Hlim Hout.
  assert (Hsz : int_add maxRetries 1 = maxRetries + 1)
    by (apply int_add_id; int_unfold; lia).
  rewrite kafkaMsgProcessor_unfold, Hsz, make_ok by lia.
  cbn [logf emit chans trace].
  set (ch := length (chans w)).
  set (db := mkDataBlock msg (mkClosure ch true) (mkClosure ch false)).
  set (c0 := mkChan (maxRetries + 1) [] []).
  set (w1 := mkWorld (chans w ++ [c0]) _).
  assert (Hch1 : chans w1 !! ch = Some c0).
  { unfold w1, ch. cbn [chans]. apply list_lookup_middle. reflexivity. }
  assert (Hn : length (deliveries (trace w1)) = length (deliveries (trace w))).
  { unfold w1. cbn [trace]. rewrite !deliveries_app. cbn [deliveries].
    rewrite !app_nil_r. reflexivity. }
  specialize (Hout db). rewrite <- Hn in Hout.
  destruct (output (length (deliveries (trace w1))) db) as [|c rest] eqn:Hcalls;
    [discriminate|].
  cbn [head] in Hout. inversion Hout; subst c.
  pose proof (send_output_chans output db ch w1 c0 eq_refl eq_refl Hch1) as Hch2.
  rewrite Hcalls in Hch2. cbn [map call_val] in Hch2.
  assert (Hwf : chan_wf c0) by (left; reflexivity).
  destruct (sends_pending (true :: map call_val rest) c0 Hwf) as [Hp _].
  destruct (chan_recv_pending _ true (map call_val rest) Hp) as (c' & Hrecv & _).
  rewrite loop_S.
  erewrite recv_ok;
    [ | rewrite Hch2; apply list_lookup_insert_eq; eapply lookup_lt_Some; exact Hch1
      | exact Hrecv ].
  eexists. exists db. eexists.
  split; [reflexivity|]. split; [reflexivity|].
  cbn [logf emit trace]. rewrite trace_send_output. unfold w1. cbn [trace].
  split; [rewrite <- !app_assoc; cbn [app]; reflexivity|].
  split; [reflexivity|]. repeat split.
Qed.

Lemma ack_on_first_delivery_witness :
  -1 <= 3 < int_max /\
  3 + 1 <= chan_max_amd64 /\
  (forall d, head (always_ack (length (deliveries (trace world0))) d) = Some CallAck) /\
  exists (w' : World) (db : DataBlock) (evs : list Event),
    kafkaMsgProcessor chan_max_amd64 goka_up always_ack ["kafka:9092"] "orders.errors" 3 no_backoff
      [x01; x02] world0 = Some (Returned, w')
    /\ Data db = [x01; x02]
    /\ trace w' = trace world0 ++ evs
    /\ evs = [EvLog LPrint "Message received";
              EvMake (length (chans world0)) (3 + 1);
              EvOutput db;
              EvLog LPrint "Success on message process"]
    /\ deliveries evs = [db]
    /\ emitters evs = [] /\ emits evs = [] /\ timers evs = [].
Proof.
  split; [int_unfold; lia|]. split; [lim_unfold; lia|].
  split; [intros; reflexivity|].
  apply (ack_on_first_delivery chan_max_amd64 goka_up always_ack ["kafka:9092"] "orders.errors" 3
           no_backoff [x01; x02] world0).
  - int_unfold; lia.
  - lim_unfold; lia.
  - intros; reflexivity.
Defined.

(** ** Failures of the dead-letter transport *)

(** The projections of a whole run only see its last part. *)
Lemma run_projections (a b c : Event) (calc : Z -> Z) (db : DataBlock) (n : nat)
    (tail : list Event) :
  emitters [a; b; c] = [] -> emits [a; b; c] = [] -> published [a; b; c] = [] ->
  emitters ([a; b; c] ++ retry_evs calc db 0 n ++ tail) = emitters tail
  /\ emits ([a; b; c] ++ retry_evs calc db 0 n ++ tail) = emits tail
  /\ published ([a; b; c] ++ retry_evs calc db 0 n ++ tail) = published tail.
Proof.
  intros He Hm Hp.
  rewrite !emitters_app, !emits_app, !published_app, He, Hm, Hp.
  rewrite emitters_retry_evs, emits_retry_evs, published_retry_evs.
  repeat split.
Qed.

(** C9.  When creating the dead-letter emitter fails: the turn of the loop
    that finds the retries exhausted logs the error and returns, leaving
    the warning, the failed creation and the error line in the trace, and
    nothing else; and whatever the consumer does, the callback ends without
    a single call of EmitSync, and having asked for the emitter it has
    returned, not panicked, right after logging the error. *)
Theorem emitter_failure_drops_message
    (lim : Z) (goka : Goka) (bs : list string) (tp : string) (maxRetries : Z) (calc : Z -> Z)
    (e : string) :
  is_int maxRetries ->
  NewEmitter goka bs tp = Some e ->
  (forall (output : Consumer) (fuel : nat) (data : list byte) (result : nat)
          (db : DataBlock) (retries : Z) (w w1 : World),
      recv result w = Some (false, w1) ->
      maxRetries <= retries ->
      loop goka output bs tp maxRetries calc (S fuel) data result db retries w
      = Some (Returned,
              mkWorld (chans w1)
                (trace w ++
                 [EvLog LWarn "Too much retries, not possible to process the message (copy at %v)";
                  EvNewEmitter bs tp (Some e);
                  EvLog LError "Error creating publisher to track error message: %v"])))
  /\
  (forall (output : Consumer) (msg : list byte) (w : World),
      exists (o : Outcome) (w' : World) (evs : list Event),
        kafkaMsgProcessor lim goka output bs tp maxRetries calc msg w = Some (o, w')
        /\ trace w' = trace w ++ evs
        /\ emits evs = []
        /\ (emitters evs <> [] ->
            o = Returned /\
            exists pre,
              evs = pre ++
                    [EvLog LWarn "Too much retries, not possible to process the message (copy at %v)";
                     EvNewEmitter bs tp (Some e);
                     EvLog LError "Error creating publisher to track error message: %v"]
              /\ emitters pre = [])).
Proof.
  intros Hint Hne. split.
  - intros output fuel data result db retries w w1 Hrecv Hex.
    rewrite loop_S, Hrecv, Z.geb_leb.
    destruct (Z.leb_spec maxRetries retries); [|lia].
    rewrite deadLetter_spec. unfold dead_evs. rewrite Hne.
    rewrite (trace_recv _ _ _ _ Hrecv). reflexivity.
  - intros output msg w.
    destruct (callback_runs lim goka output bs tp maxRetries calc msg w Hint)
      as [[_ Hp]|[_ (n & o & w' & tail & Hrun & Ht & He & _)]].
    + eexists. eexists. exists [EvLog LPrint "Message received"].
      split; [exact Hp|]. split; [reflexivity|]. split; [reflexivity|].
      intros Habs. exfalso. apply Habs. reflexivity.
    + exists o, w'. eexists. split; [exact Hrun|]. split; [exact Ht|].
      edestruct run_projections as (Hem & Hes & _);
        [ | | | rewrite Hes, Hem ]; try reflexivity.
      destruct He; cbn [emits emitters]; try (split; [reflexivity|congruence]).
      unfold dead_evs. rewrite Hne. cbn [emits emitters].
      split; [reflexivity|]. intros _. split; [reflexivity|].
      exists ([EvLog LPrint "Message received";
               EvMake (length (chans w)) (maxRetries + 1);
               EvOutput (mkDataBlock msg (mkClosure (length (chans w)) true)
                                         (mkClosure (length (chans w)) false))]
              ++ retry_evs calc
                   (mkDataBlock msg (mkClosure (length (chans w)) true)
                                    (mkClosure (length (chans w)) false)) 0 n).
      split.
      * rewrite <- !app_assoc. reflexivity.
      * rewrite emitters_app, emitters_retry_evs. reflexivity.
Qed.

Lemma emitter_failure_drops_message_witness :
  is_int 1 /\
  NewEmitter goka_no_emitter ["kafka:9092"] "orders.errors"
  = Some "kafka: client has run out of available brokers" /\
  (recv 0 (mkWorld [mkChan 2 [false] []] []) = Some (false, mkWorld [mkChan 2 [] []] [])
   /\ 1 <= 1
   /\ loop goka_no_emitter always_nack ["kafka:9092"] "orders.errors" 1 no_backoff 1
        [x01; x02] 0 (mkDataBlock [x01; x02] (mkClosure 0 true) (mkClosure 0 false)) 1
        (mkWorld [mkChan 2 [false] []] [])
      = Some (Returned,
              mkWorld [mkChan 2 [] []]
                [EvLog LWarn "Too much retries, not possible to process the message (copy at %v)";
                 EvNewEmitter ["kafka:9092"] "orders.errors"
                   (Some "kafka: client has run out of available brokers");
                 EvLog LError "Error creating publisher to track error message: %v"]))
  /\
  exists (o : Outcome) (w' : World) (evs : list Event),
    kafkaMsgProcessor chan_max_amd64 goka_no_emitter always_nack ["kafka:9092"] "orders.errors" 1
      no_backoff [x01; x02] world0 = Some (o, w')
    /\ trace w' = trace world0 ++ evs
    /\ emits evs = []
    /\ (emitters evs <> [] ->
        o = Returned /\
        exists pre,
          evs = pre ++
                [EvLog LWarn "Too much retries, not possible to process the message (copy at %v)";
                 EvNewEmitter ["kafka:9092"] "orders.errors"
                   (Some "kafka: client has run out of available brokers");
                 EvLog LError "Error creating publisher to track error message: %v"]
          /\ emitters pre = []).
Proof.
  assert (Hi : is_int 1) by (int_unfold; lia).
  destruct (emitter_failure_drops_message chan_max_amd64 goka_no_emitter ["kafka:9092"] "orders.errors" 1
              no_backoff "kafka: client has run out of available brokers" Hi eq_refl)
    as [HA HB].
  split; [exact Hi|]. split; [reflexivity|]. split.
  - split; [reflexivity|]. split; [lia|].
    apply (HA always_nack 0%nat [x01; x02] 0%nat
             (mkDataBlock [x01; x02] (mkClosure 0 true) (mkClosure 0 false)) 1
             (mkWorld [mkChan 2 [false] []] []) (mkWorld [mkChan 2 [] []] []));
      [reflexivity|lia].
  - apply HB.
Defined.

(** C4.  When the emitter is there and the synchronous publish fails: the
    turn of the loop that finds the retries exhausted logs the payload as
    potentially lost, finishes the emitter and returns; and whatever the
    consumer does, the callback ends with nothing accepted by the
    dead-letter topic, and having called EmitSync it has called it once,
    put nothing on the output channel afterwards, and returned. *)
Theorem publish_failure_drops_message
    (lim : Z) (goka : Goka) (bs : list string) (tp : string) (maxRetries : Z) (calc : Z -> Z)
    (msg : list byte) (e : string) :
  is_int maxRetries ->
  NewEmitter goka bs tp = None ->
  EmitSync goka tp "" msg = Some e ->
  (forall (output : Consumer) (fuel : nat) (result : nat) (db : DataBlock)
          (retries : Z) (w w1 : World),
      recv result w = Some (false, w1) ->
      maxRetries <= retries ->
      loop goka output bs tp maxRetries calc (S fuel) msg result db retries w
      = Some (Returned,
              mkWorld (chans w1)
                (trace w ++
                 [EvLog LWarn "Too much retries, not possible to process the message (copy at %v)";
                  EvNewEmitter bs tp None;
                  EvEmitSync tp "" msg (Some e);
                  EvLog LError "Error publishing error message (potentially lost): %v";
                  EvFinish tp])))
  /\
  (forall (output : Consumer) (w : World),
      exists (o : Outcome) (w' : World) (evs : list Event),
        kafkaMsgProcessor lim goka output bs tp maxRetries calc msg w = Some (o, w')
        /\ trace w' = trace w ++ evs
        /\ published evs = []
        /\ (emits evs <> [] ->
            o = Returned /\
            exists pre,
              evs = pre ++
                    [EvEmitSync tp "" msg (Some e);
                     EvLog LError "Error publishing error message (potentially lost): %v";
                     EvFinish tp]
              /\ emits pre = [])).
Proof.
  intros Hint Hne Hes. split.
  - intros output fuel result db retries w w1 Hrecv Hex.
    rewrite loop_S, Hrecv, Z.geb_leb.
    destruct (Z.leb_spec maxRetries retries); [|lia].
    rewrite deadLetter_spec. unfold dead_evs. rewrite Hne, Hes.
    rewrite (trace_recv _ _ _ _ Hrecv). reflexivity.
  - intros output w.
    destruct (callback_runs lim goka output bs tp maxRetries calc msg w Hint)
      as [[_ Hp]|[_ (n & o & w' & tail & Hrun & Ht & He & _)]].
    + eexists. eexists. exists [EvLog LPrint "Message received"].
      split; [exact Hp|]. split; [reflexivity|]. split; [reflexivity|].
      intros Habs. exfalso. apply Habs. reflexivity.
    + exists o, w'. eexists. split; [exact Hrun|]. split; [exact Ht|].
      edestruct run_projections as (_ & Hem & Hpu);
        [ | | | rewrite Hem, Hpu ]; try reflexivity.
      destruct He; cbn [emits published]; try (split; [reflexivity|congruence]).
      unfold dead_evs. rewrite Hne, Hes. cbn [emits published].
      split; [reflexivity|]. intros _. split; [reflexivity|].
      exists ([EvLog LPrint "Message received";
               EvMake (length (chans w)) (maxRetries + 1);
               EvOutput (mkDataBlock msg (mkClosure (length (chans w)) true)
                                         (mkClosure (length (chans w)) false))]
              ++ retry_evs calc
                   (mkDataBlock msg (mkClosure (length (chans w)) true)
                                    (mkClosure (length (chans w)) false)) 0 n
              ++ [EvLog LWarn "Too much retries, not possible to process the message (copy at %v)";
                  EvNewEmitter bs tp None]).
      split.
      * rewrite <- !app_assoc. reflexivity.
      * rewrite !emits_app, emits_retry_evs. reflexivity.
Qed.

Lemma publish_failure_drops_message_witness :
  is_int 1 /\
  NewEmitter goka_no_publish ["kafka:9092"] "orders.errors" = None /\
  EmitSync goka_no_publish "orders.errors" "" [x01; x02]
  = Some "kafka server: request timed out" /\
  (recv 0 (mkWorld [mkChan 2 [false] []] []) = Some (false, mkWorld [mkChan 2 [] []] [])
   /\ 1 <= 1
   /\ loop goka_no_publish always_nack ["kafka:9092"] "orders.errors" 1 no_backoff 1
        [x01; x02] 0 (mkDataBlock [x01; x02] (mkClosure 0 true) (mkClosure 0 false)) 1
        (mkWorld [mkChan 2 [false] []] [])
      = Some (Returned,
              mkWorld [mkChan 2 [] []]
                [EvLog LWarn "Too much retries, not possible to process the message (copy at %v)";
                 EvNewEmitter ["kafka:9092"] "orders.errors" None;
                 EvEmitSync "orders.errors" "" [x01; x02]
                   (Some "kafka server: request timed out");
                 EvLog LError "Error publishing error message (potentially lost): %v";
                 EvFinish "orders.errors"]))
  /\
  exists (o : Outcome) (w' : World) (evs : list Event),
    kafkaMsgProcessor chan_max_amd64 goka_no_publish always_nack ["kafka:9092"] "orders.errors" 1
      no_backoff [x01; x02] world0 = Some (o, w')
    /\ trace w' = trace world0 ++ evs
    /\ published evs = []
    /\ (emits evs <> [] ->
        o = Returned /\
        exists pre,
          evs = pre ++
                [EvEmitSync "orders.errors" "" [x01; x02]
                   (Some "kafka server: request timed out");
                 EvLog LError "Error publishing error message (potentially lost): %v";
                 EvFinish "orders.errors"]
          /\ emits pre = []).
Proof.
  assert (Hi : is_int 1) by (int_unfold; lia).
  destruct (publish_failure_drops_message chan_max_amd64 goka_no_publish ["kafka:9092"] "orders.errors" 1
              no_backoff [x01; x02] "kafka server: request timed out" Hi eq_refl eq_refl)
    as [HA HB].
  split; [exact Hi|]. split; [reflexivity|]. split; [reflexivity|]. split.
  - split; [reflexivity|]. split; [lia|].
    apply (HA always_nack 0%nat 0%nat
             (mkDataBlock [x01; x02] (mkClosure 0 true) (mkClosure 0 false)) 1
             (mkWorld [mkChan 2 [false] []] []) (mkWorld [mkChan 2 [] []] []));
      [reflexivity|lia].
  - apply HB.
Defined.

(** ** The dead-letter record *)


Lemma startConsumer_ok (lim : Z) (goka : Goka) (q : KafkaReceiver) (msgs : Consumer)
    (maxRetries : Z) (calc : Z -> Z) (rt : Runtime) :
  NewProcessor goka (brokers q) (group q) (topic q) = None ->
  startConsumer lim goka q msgs maxRetries calc rt
  = (None,
     mkKafkaReceiver (brokers q) (group q) (topic q) (errorTopic q)
       (Some (length (contexts rt))),
     mkRuntime (contexts rt ++ [false])
       (running rt ++
        [(length (contexts rt),
          mkGraph (group q) (topic q)
            (kafkaMsgProcessor lim goka msgs (brokers q) (errorTopic q) maxRetries calc))])
       (rlog rt ++ [(LPrint, "Starting goka processor")])).
Proof. intros Hp. unfold startConsumer. rewrite Hp. reflexivity. Qed.

Lemma startConsumer_fails (lim : Z) (goka : Goka) (q : KafkaReceiver) (msgs : Consumer)
    (maxRetries : Z) (calc : Z -> Z) (rt : Runtime) (e : string) :
  NewProcessor goka (brokers q) (group q) (topic q) = Some e ->
  startConsumer lim goka q msgs maxRetries calc rt
  = (Some e, q, rlogf LPrint "Starting goka processor" rt).
Proof. intros Hp. unfold startConsumer. rewrite Hp. reflexivity. Qed.



(** ** The outcome channel *)

(** While the buffered values and the sends still to come fit the
    capacity, no send of the schedule finds the buffer full. *)
Lemma never_blocks_room (ops : list ChanOp) :
  forall c : Chan,
    sendq c = [] ->
    Z.of_nat (length (buf c)) + Z.of_nat (count_sends ops) <= cap c ->
    never_blocks ops c = true.
Proof.
  induction ops as [|[v|] ops IH]; intros c Hq Hroom; cbn [never_blocks count_sends] in *.
  - reflexivity.
  - unfold chan_send.
    destruct (Z.ltb_spec (Z.of_nat (length (buf c))) (cap c)) as [Hlt|Hge]; [|lia].
    unfold chan_blocked at 1. cbn [sendq]. rewrite Hq. cbn [negb andb].
    apply IH; cbn [sendq buf cap]; [reflexivity|].
    rewrite length_app. cbn [length]. lia.
  - unfold chan_recv. rewrite Hq.
    destruct (buf c) as [|b bf] eqn:Hb.
    + apply IH; [exact Hq|]. rewrite Hb. exact Hroom.
    + apply IH; cbn [sendq buf cap]; [reflexivity|].
      cbn [length] in Hroom. lia.
Qed.

(** C8.  When the channel can be made (its size maxRetries + 1 is neither
    negative nor more than the runtime makes), the callback makes exactly one
    channel per message, with capacity maxRetries + 1 and empty; on such a
    channel, whatever the order of the sends of the consumer and of the
    receives of the loop, a schedule with at most maxRetries + 1 sends has
    no send that blocks. *)
Theorem outcome_channel_capacity
    (lim : Z) (goka : Goka) (output : Consumer) (bs : list string) (tp : string)
    (maxRetries : Z) (calc : Z -> Z) (msg : list byte) (w : World) :
  is_int maxRetries ->
  0 <= int_add maxRetries 1 <= lim ->
  exists (o : Outcome) (w' : World) (evs : list Event) (w1 : World) (c : Chan),
    kafkaMsgProcessor lim goka output bs tp maxRetries calc msg w = Some (o, w')
    /\ trace w' = trace w ++ evs
    /\ makes evs = [(length (chans w), maxRetries + 1)]
    /\ make lim (int_add maxRetries 1) (logf LPrint "Message received" w)
       = Some (length (chans w), w1)
    /\ chans w1 !! length (chans w) = Some c
    /\ cap c = maxRetries + 1 /\ buf c = [] /\ sendq c = []
    /\ (forall ops : list ChanOp,
          Z.of_nat (count_sends ops) <= maxRetries + 1 ->
          never_blocks ops c = true).
Proof.
  intros Hint [Hpos Hlim].
  destruct (size_nonneg maxRetries Hint Hpos) as [Hsz Hrange].
  destruct (callback_runs lim goka output bs tp maxRetries calc msg w Hint)
    as [[Hneg _]|[_ (n & o & w' & tail & Hrun & Ht & He & _)]]; [lia|].
  exists o, w'. eexists. eexists. exists (mkChan (maxRetries + 1) [] []).
  split; [exact Hrun|]. split; [exact Ht|].
  split.
  { rewrite !makes_app, makes_retry_evs.
    destruct (loop_end_deliveries _ _ _ _ _ _ He) as [_ Hm]. rewrite Hm.
    reflexivity. }
  split. { rewrite Hsz, make_ok by lia. reflexivity. }
  split. { cbn [chans logf emit]. apply list_lookup_middle. reflexivity. }
  repeat split.
  intros ops Hops. apply never_blocks_room; [reflexivity|].
  cbn [buf cap length]. lia.
Qed.

Lemma outcome_channel_capacity_witness :
  is_int 3 /\ 0 <= int_add 3 1 <= chan_max_amd64 /\
  exists (o : Outcome) (w' : World) (evs : list Event) (w1 : World) (c : Chan),
    kafkaMsgProcessor chan_max_amd64 goka_up always_nack ["kafka:9092"] "orders.errors" 3 no_backoff
      [x01; x02] world0 = Some (o, w')
    /\ trace w' = trace world0 ++ evs
    /\ makes evs = [(length (chans world0), 3 + 1)]
    /\ make chan_max_amd64 (int_add 3 1) (logf LPrint "Message received" world0)
       = Some (length (chans world0), w1)
    /\ chans w1 !! length (chans world0) = Some c
    /\ cap c = 3 + 1 /\ buf c = [] /\ sendq c = []
    /\ (forall ops : list ChanOp,
          Z.of_nat (count_sends ops) <= 3 + 1 ->
          never_blocks ops c = true).
Proof.
  assert (Hs : 0 <= int_add 3 1 <= chan_max_amd64)
    by (split; vm_compute; discriminate).
  split; [int_unfold; lia|]. split; [exact Hs|].
  apply (outcome_channel_capacity chan_max_amd64 goka_up always_nack ["kafka:9092"] "orders.errors" 3
           no_backoff [x01; x02] world0).
  - int_unfold; lia.
  - exact Hs.
Defined.

(** ** One item and one channel for all attempts *)

Lemma sends_room (vs : list bool) :
  forall c : Chan,
    sendq c = [] ->
    Z.of_nat (length (buf c)) + Z.of_nat (length vs) <= cap c ->
    sends vs c = mkChan (cap c) (buf c ++ vs) [].
Proof.
  induction vs as [|v vs IH]; intros c Hq Hroom.
  - change (sends [] c) with c. rewrite app_nil_r. destruct c; simpl in *; congruence.
  - change (sends (v :: vs) c) with (sends vs (chan_send v c)).
    cbn [length] in Hroom.
    assert (Hs : chan_send v c = mkChan (cap c) (buf c ++ [v]) []).
    { unfold chan_send.
      destruct (Z.ltb_spec (Z.of_nat (length (buf c))) (cap c)); [|lia].
      rewrite Hq. reflexivity. }
    rewrite Hs, IH; cbn [cap buf sendq]; [|reflexivity|rewrite length_app; cbn [length]; lia].
    rewrite <- app_assoc. reflexivity.
Qed.

Section FrontLoaded.

Variable goka : Goka.
Variable output : Consumer.
Variable bs : list string.
Variable tp : string.
Variable maxRetries : Z.
Variable calc : Z -> Z.
Variable data : list byte.
Variable result : nat.
Variable db : DataBlock.
Variable size : Z.
Variable n0 : nat.

Hypothesis Hmax : maxRetries <= int_max.
Hypothesis Hack : Ack db = mkClosure result true.
Hypothesis Hnack : Nack db = mkClosure result false.
Hypothesis Hsilent : forall n d, (n0 < n)%nat -> output n d = [].

(** The consumer has stopped answering, and the buffer still holds one
    Nack for every turn to come: the loop takes them one by one, as if each
    delivery had been rejected. *)
Lemma loop_stale_nacks (fuel : nat) :
  forall (retries : Z) (w : World),
    int_min <= retries <= maxRetries ->
    (Z.to_nat (maxRetries - retries) < fuel)%nat ->
    (n0 < length (deliveries (trace w)))%nat ->
    chans w !! result
    = Some (mkChan size (replicate (S (Z.to_nat (maxRetries - retries))) false) []) ->
    loop goka output bs tp maxRetries calc fuel data result db retries w
    = Some (deadLetter goka bs tp data
              (mkWorld (<[result := mkChan size [] []]> (chans w))
                       (trace w ++ retry_evs calc db retries
                                     (Z.to_nat (maxRetries - retries))))).
Proof.
  induction fuel as [|fuel IH]; intros retries w Hlo Hfuel Hn Hch; [lia|].
  rewrite loop_S.
  rewrite (recv_ok result w _
             (mkChan size (replicate (Z.to_nat (maxRetries - retries)) false) [])
             false Hch) by reflexivity.
  rewrite Z.geb_leb. destruct (Z.leb_spec maxRetries retries) as [Hge|Hlt].
  - replace (Z.to_nat (maxRetries - retries)) with O by lia.
    simpl. rewrite app_nil_r. reflexivity.
  - assert (Hint : int_add retries 1 = retries + 1).
    { apply int_add_id. int_unfold. lia. }
    assert (Hlen : (result < length (chans w))%nat).
    { eapply lookup_lt_Some. exact Hch. }
    rewrite Hint.
    match goal with |- loop _ _ _ _ _ _ _ _ _ _ _ ?w2 = _ => set (w2' := w2) end.
    assert (Hch2 : chans w2'
                   = <[result := mkChan size
                                   (replicate (Z.to_nat (maxRetries - retries)) false) []]>
                       (chans w)).
    { unfold w2'.
      rewrite (send_output_chans output db result _
                 (mkChan size (replicate (Z.to_nat (maxRetries - retries)) false) [])
                 Hack Hnack).
      - rewrite Hsilent.
        + cbn [logf emit chans map call_val sends foldl].
          apply list_insert_insert_eq.
        + cbn [logf emit trace]. rewrite !deliveries_app. cbn [deliveries].
          rewrite !app_nil_r. exact Hn.
      - cbn [logf emit chans]. apply list_lookup_insert_eq. exact Hlen. }
    rewrite (IH (retries + 1) w2').
    + f_equal. f_equal. apply world_eq; cbn [chans trace].
      * rewrite Hch2. apply list_insert_insert_eq.
      * unfold w2'. rewrite trace_send_output. cbn [logf emit trace].
        replace (Z.to_nat (maxRetries - retries))
          with (S (Z.to_nat (maxRetries - (retries + 1)))) by lia.
        simpl. rewrite <- !app_assoc. reflexivity.
    + lia.
    + lia.
    + unfold w2'. rewrite trace_send_output, deliveries_app, length_app.
      cbn [logf emit trace]. rewrite !deliveries_app. cbn [deliveries length].
      rewrite !app_nil_r. lia.
    + rewrite Hch2, list_lookup_insert_eq by exact Hlen.
      replace (Z.to_nat (maxRetries - retries))
        with (S (Z.to_nat (maxRetries - (retries + 1)))) by lia.
      reflexivity.
Qed.

End FrontLoaded.

Lemma map_call_val_nacks (n : nat) :
  map call_val (replicate n CallNack) = replicate n false.
Proof. induction n as [|n IH]; simpl; [|rewrite IH]; reflexivity. Qed.

(** C3 (amended).  Whenever the channel can be made (its size maxRetries + 1
    is neither negative nor more than the runtime makes), the callback makes
    one channel per message and builds one Work Item whose two closures
    capture that channel; every delivery,
    the first and each retry, puts that very item on the output channel:
    same payload, same closures, same channel.  The loop receives whatever
    signal is oldest on that channel: if the consumer answers the first
    delivery with maxRetries + 1 Nacks and never answers again, the surplus
    Nacks are taken by the waits of the later attempts, and the callback
    retries maxRetries times and dead-letters. *)
Theorem same_item_every_attempt
    (lim : Z) (goka : Goka) (output : Consumer) (bs : list string) (tp : string)
    (maxRetries : Z) (calc : Z -> Z) (msg : list byte) (w : World) :
  is_int maxRetries ->
  0 <= int_add maxRetries 1 <= lim ->
  (exists (o : Outcome) (w' : World) (evs : list Event) (n : nat),
      kafkaMsgProcessor lim goka output bs tp maxRetries calc msg w = Some (o, w')
      /\ trace w' = trace w ++ evs
      /\ makes evs = [(length (chans w), maxRetries + 1)]
      /\ deliveries evs
         = replicate (S n)
             (mkDataBlock msg (mkClosure (length (chans w)) true)
                              (mkClosure (length (chans w)) false)))
  /\
  (0 <= maxRetries ->
   (forall d, output (length (deliveries (trace w))) d
              = replicate (S (Z.to_nat maxRetries)) CallNack) ->
   (forall n d, (length (deliveries (trace w)) < n)%nat -> output n d = []) ->
   exists (w' : World) (pre : list Event),
     kafkaMsgProcessor lim goka output bs tp maxRetries calc msg w = Some (Returned, w')
     /\ trace w' = trace w ++ pre ++ dead_evs goka bs tp msg
     /\ deliveries pre
        = replicate (S (Z.to_nat maxRetries))
            (mkDataBlock msg (mkClosure (length (chans w)) true)
                             (mkClosure (length (chans w)) false))
     /\ emits pre = []).
Proof.
  intros Hint [Hpos Hlim].
  destruct (size_nonneg maxRetries Hint Hpos) as [Hsz Hrange].
  split.
  - destruct (callback_runs lim goka output bs tp maxRetries calc msg w Hint)
      as [[Hneg _]|[_ (n & o & w' & tail & Hrun & Ht & He & _)]]; [lia|].
    exists o, w'. eexists. exists n.
    split; [exact Hrun|]. split; [exact Ht|].
    destruct (loop_end_deliveries _ _ _ _ _ _ He) as [Hd Hm].
    split.
    + rewrite !makes_app, makes_retry_evs, Hm. reflexivity.
    + rewrite !deliveries_app, deliveries_retry_evs, Hd, app_nil_r. reflexivity.
  - intros Hk Hfirst Hsilent.
    rewrite kafkaMsgProcessor_unfold, Hsz, make_ok by lia.
    cbn [logf emit chans trace].
    set (ch := length (chans w)).
    set (db := mkDataBlock msg (mkClosure ch true) (mkClosure ch false)).
    set (c0 := mkChan (maxRetries + 1) [] []).
    set (w1 := mkWorld (chans w ++ [c0]) _).
    assert (Hch1 : chans w1 !! ch = Some c0).
    { unfold w1, ch. cbn [chans]. apply list_lookup_middle. reflexivity. }
    assert (Hn : length (deliveries (trace w1)) = length (deliveries (trace w))).
    { unfold w1. cbn [trace]. rewrite !deliveries_app. cbn [deliveries].
      rewrite !app_nil_r. reflexivity. }
    assert (Hch2 : chans (send_output output db w1) !! ch
                   = Some (mkChan (maxRetries + 1)
                             (replicate (S (Z.to_nat (maxRetries - 0))) false) [])).
    { rewrite (send_output_chans output db ch w1 c0 eq_refl eq_refl Hch1).
      rewrite Hn, Hfirst, map_call_val_nacks.
      rewrite list_lookup_insert_eq by (eapply lookup_lt_Some; exact Hch1).
      rewrite sends_room; cbn [c0 cap buf sendq length];
        [ | reflexivity | rewrite length_replicate; lia ].
      rewrite Z.sub_0_r. reflexivity. }
    rewrite (loop_stale_nacks goka output bs tp maxRetries calc msg ch db
               (maxRetries + 1) (length (deliveries (trace w))));
      [ | int_unfold; lia | reflexivity | reflexivity | exact Hsilent
        | int_unfold; lia | rewrite Z.sub_0_r; lia
        | rewrite trace_send_output, deliveries_app, length_app, Hn; cbn; lia
        | exact Hch2 ].
    rewrite deadLetter_spec. cbn [chans trace]. rewrite Z.sub_0_r.
    eexists.
    exists ([EvLog LPrint "Message received"; EvMake ch (maxRetries + 1); EvOutput db]
            ++ retry_evs calc db 0 (Z.to_nat maxRetries)).
    split; [reflexivity|]. cbn [trace].
    split.
    { rewrite trace_send_output. unfold w1. cbn [trace].
      rewrite <- !app_assoc. reflexivity. }
    rewrite deliveries_app, emits_app. cbn [deliveries emits app].
    rewrite deliveries_retry_evs, emits_retry_evs. split; reflexivity.
Qed.

Lemma same_item_every_attempt_witness :
  is_int 1 /\ 0 <= int_add 1 1 <= chan_max_amd64 /\
  (exists (o : Outcome) (w' : World) (evs : list Event) (n : nat),
      kafkaMsgProcessor chan_max_amd64 goka_up nack_twice_then_silent ["kafka:9092"] "orders.errors" 1
        no_backoff [x01; x02] world0 = Some (o, w')
      /\ trace w' = trace world0 ++ evs
      /\ makes evs = [(length (chans world0), 1 + 1)]
      /\ deliveries evs
         = replicate (S n)
             (mkDataBlock [x01; x02] (mkClosure (length (chans world0)) true)
                                     (mkClosure (length (chans world0)) false)))
  /\ 0 <= 1
  /\ (forall d, nack_twice_then_silent (length (deliveries (trace world0))) d
                = replicate (S (Z.to_nat 1)) CallNack)
  /\ (forall n d, (length (deliveries (trace world0)) < n)%nat ->
                  nack_twice_then_silent n d = [])
  /\ exists (w' : World) (pre : list Event),
       kafkaMsgProcessor chan_max_amd64 goka_up nack_twice_then_silent ["kafka:9092"] "orders.errors" 1
         no_backoff [x01; x02] world0 = Some (Returned, w')
       /\ trace w' = trace world0 ++ pre
                     ++ dead_evs goka_up ["kafka:9092"] "orders.errors" [x01; x02]
       /\ deliveries pre
          = replicate (S (Z.to_nat 1))
              (mkDataBlock [x01; x02] (mkClosure (length (chans world0)) true)
                                      (mkClosure (length (chans world0)) false))
       /\ emits pre = [].
Proof.
  assert (Hi : is_int 1) by (int_unfold; lia).
  assert (Hs : 0 <= int_add 1 1 <= chan_max_amd64)
    by (split; vm_compute; discriminate).
  assert (Hfirst : forall d, nack_twice_then_silent (length (deliveries (trace world0))) d
                             = replicate (S (Z.to_nat 1)) CallNack)
    by (intros d; reflexivity).
  assert (Hsilent : forall n d, (length (deliveries (trace world0)) < n)%nat ->
                                nack_twice_then_silent n d = []).
  { intros [|n] d Hn; [inversion Hn|reflexivity]. }
  destruct (same_item_every_attempt chan_max_amd64 goka_up nack_twice_then_silent ["kafka:9092"]
              "orders.errors" 1 no_backoff [x01; x02] world0 Hi Hs) as [H1 H2].
  split; [exact Hi|]. split; [exact Hs|]. split; [exact H1|].
  split; [lia|]. split; [exact Hfirst|]. split; [exact Hsilent|].
  apply H2; [lia|exact Hfirst|exact Hsilent].
Defined.

(** C3 as stated fails.  With maxRetries = 1, a consumer that rejects
    the first delivery twice and never answers the second: both deliveries
    carry the same two closures, one channel was made, and the wait of the
    second attempt is ended by the second Nack of the first, so that the
    payload is dead-lettered although the second delivery was never
    answered. *)
Lemma same_item_counterexample :
  exists (w' : World) (d1 d2 : DataBlock),
    kafkaMsgProcessor chan_max_amd64 goka_up nack_twice_then_silent ["kafka:9092"] "orders.errors" 1
      no_backoff [x01; x02] world0 = Some (Returned, w')
    /\ deliveries (trace w') = [d1; d2]
    /\ Ack d2 = Ack d1 /\ Nack d2 = Nack d1
    /\ makes (trace w') = [(cl_chan (Nack d2), 2)]
    /\ nack_twice_then_silent 1%nat d2 = []
    /\ published (trace w') = [("orders.errors", "", [x01; x02])].
Proof.
  eexists. eexists. eexists.
  split; [vm_compute; reflexivity|].
  split; [reflexivity|]. repeat split.
Qed.

(** ** The default retry policy *)

Lemma pow2_int_exact (indef n : Z) : 0 <= n <= 62 -> pow2_int indef n = 2 ^ n.
Proof.
  intros Hn. unfold pow2_int.
  destruct (Z.ltb_spec n 0); [lia|]. destruct (Z.ltb_spec n 63); [reflexivity|lia].
Qed.

Lemma retryFuncTime_exact (indef n : Z) :
  0 <= n <= 53 -> Connect_retryFuncTime indef n = 1000 * 2 ^ n.
Proof.
  intros Hn. unfold Connect_retryFuncTime.
  rewrite pow2_int_exact by lia. apply int_mul_id.
  assert (H0 : 0 < 2 ^ n) by (apply Z.pow_pos_nonneg; lia).
  assert (H1 : 2 ^ n <= 2 ^ 53) by (apply Z.pow_le_mono_r; lia).
  change (2 ^ 53) with 9007199254740992 in H1. int_unfold. lia.
Qed.

(** C6 (amended).  Connect is ConnectCustomRetry with 3 retries and the
    function of its literal; on a 64-bit int that function returns
    1000 * 2^n for every n from 0 to 53, and it is strictly increasing on
    that range. *)
Theorem default_retry_policy
    (lim indef : Z) (goka : Goka) (q : KafkaReceiver) (msgs : Consumer) (rt : Runtime) :
  Connect lim indef goka q msgs rt
  = ConnectCustomRetry lim goka q msgs 3 (Connect_retryFuncTime indef) rt
  /\ (forall n, 0 <= n <= 53 -> Connect_retryFuncTime indef n = 1000 * 2 ^ n)
  /\ (forall n m, 0 <= n < m -> m <= 53 ->
        Connect_retryFuncTime indef n < Connect_retryFuncTime indef m).
Proof.
  split; [reflexivity|]. split; [apply retryFuncTime_exact|].
  intros n m Hnm Hm. rewrite !retryFuncTime_exact by lia.
  assert (2 ^ n < 2 ^ m) by (apply Z.pow_lt_mono_r; lia). lia.
Qed.

Lemma default_retry_policy_witness :
  Connect chan_max_amd64 int_min goka_up (NewKafkaReceiver ["kafka:9092"] "billing" "orders") always_ack rt0
  = ConnectCustomRetry chan_max_amd64 goka_up (NewKafkaReceiver ["kafka:9092"] "billing" "orders")
      always_ack 3 (Connect_retryFuncTime int_min) rt0
  /\ (0 <= 2 <= 53 /\ Connect_retryFuncTime int_min 2 = 1000 * 2 ^ 2)
  /\ (0 <= 52 < 53 /\ 53 <= 53 /\
      Connect_retryFuncTime int_min 52 < Connect_retryFuncTime int_min 53).
Proof.
  destruct (default_retry_policy chan_max_amd64 int_min goka_up
              (NewKafkaReceiver ["kafka:9092"] "billing" "orders") always_ack rt0)
    as (Hc & Hv & Hm).
  split; [exact Hc|]. split.
  - split; [lia|]. apply Hv. lia.
  - split; [lia|]. split; [lia|]. apply Hm; lia.
Defined.

(** C6 as stated fails at n = 54: the product 1000 * 2^54 does not fit a
    64-bit int and wraps around to a negative number, below the value at
    53. *)
Lemma default_retry_policy_counterexample :
  0 <= 54
  /\ Connect_retryFuncTime int_min 54 = -432345564227567616
  /\ Connect_retryFuncTime int_min 54 <> 1000 * 2 ^ 54
  /\ Connect_retryFuncTime int_min 54 < Connect_retryFuncTime int_min 53.
Proof.
  split; [lia|]. split; [vm_compute; reflexivity|].
  split; [vm_compute; discriminate|]. vm_compute; reflexivity.
Qed.

(** ** Connecting and shutting down *)

(** C2 fails on the code.  A receiver fresh from NewKafkaReceiver, and
    goka.NewProcessor returning an error: startConsumer returns the error
    and starts nothing, and the deferred Shutdown then calls the nil
    shutdown function, so that ConnectCustomRetry panics and the error
    never reaches the caller. *)
Theorem connect_error_path_panics :
  ConnectCustomRetry chan_max_amd64 goka_down (NewKafkaReceiver ["kafka:9092"] "billing" "orders")
    always_ack 3 no_backoff rt0
  = (Panic "invalid memory address or nil pointer dereference",
     NewKafkaReceiver ["kafka:9092"] "billing" "orders",
     mkRuntime [] []
       [(LPrint, "Starting goka processor");
        (LError, "error and shutting down: %v");
        (LPrint, "Shutting down goka processors")]).
Proof. vm_compute. reflexivity. Qed.

(** On a receiver that was connected before, the same error path does
    what the specification describes: the earlier context is cancelled and
    the error is returned. *)
Lemma connect_error_after_connect (lim : Z) (goka : Goka) (q : KafkaReceiver) (msgs : Consumer)
    (maxRetries : Z) (calc : Z -> Z) (rt : Runtime) (e : string) (ctx : nat) :
  shutdown q = Some ctx ->
  NewProcessor goka (brokers q) (group q) (topic q) = Some e ->
  exists rt',
    ConnectCustomRetry lim goka q msgs maxRetries calc rt = (Ret (Some e), q, rt')
    /\ running rt' = running rt
    /\ contexts rt' = <[ctx := true]> (contexts rt).
Proof.
  intros Hs Hp. unfold ConnectCustomRetry.
  rewrite (startConsumer_fails _ _ _ _ _ _ _ e Hp). unfold Shutdown. rewrite Hs.
  eexists. split; [reflexivity|]. split; reflexivity.
Qed.

(** C10.  The shutdown field is nil in a new receiver; startConsumer
    leaves the receiver as it was when NewProcessor fails and sets the field
    only when it succeeds; and on a receiver whose field is nil, Shutdown
    panics instead of returning, and so does ConnectCustomRetry on its error
    path, with the field still nil and nothing started. *)
Theorem shutdown_nil_until_connected
    (lim : Z) (goka : Goka) (msgs : Consumer) (maxRetries : Z) (calc : Z -> Z)
    (bs : list string) (grp T : string) (q : KafkaReceiver) (rt : Runtime) :
  shutdown q = None ->
  shutdown (NewKafkaReceiver bs grp T) = None
  /\ (forall e, NewProcessor goka (brokers q) (group q) (topic q) = Some e ->
        startConsumer lim goka q msgs maxRetries calc rt
        = (Some e, q, rlogf LPrint "Starting goka processor" rt))
  /\ (NewProcessor goka (brokers q) (group q) (topic q) = None ->
        exists q' rt',
          startConsumer lim goka q msgs maxRetries calc rt = (None, q', rt')
          /\ shutdown q' = Some (length (contexts rt)))
  /\ (exists rt',
        Shutdown q rt = (Panic "invalid memory address or nil pointer dereference", rt'))
  /\ (forall e, NewProcessor goka (brokers q) (group q) (topic q) = Some e ->
        exists rt',
          ConnectCustomRetry lim goka q msgs maxRetries calc rt
          = (Panic "invalid memory address or nil pointer dereference", q, rt')
          /\ running rt' = running rt
          /\ contexts rt' = contexts rt).
Proof.
  intros Hnil. split; [reflexivity|]. split; [|split; [|split]].
  - intros e Hp. apply startConsumer_fails. exact Hp.
  - intros Hp. rewrite startConsumer_ok by exact Hp.
    eexists. eexists. split; reflexivity.
  - unfold Shutdown. rewrite Hnil. eexists. reflexivity.
  - intros e Hp. unfold ConnectCustomRetry.
    rewrite (startConsumer_fails _ _ _ _ _ _ _ e Hp). unfold Shutdown. rewrite Hnil.
    eexists. split; [reflexivity|]. split; reflexivity.
Qed.

Lemma shutdown_nil_until_connected_witness :
  shutdown (NewKafkaReceiver ["kafka:9092"] "billing" "orders") = None /\
  NewProcessor goka_down ["kafka:9092"] "billing" "orders"
  = Some "kafka: client has run out of available brokers" /\
  (exists rt',
     Shutdown (NewKafkaReceiver ["kafka:9092"] "billing" "orders") rt0
     = (Panic "invalid memory address or nil pointer dereference", rt'))
  /\ (exists rt',
        ConnectCustomRetry chan_max_amd64 goka_down (NewKafkaReceiver ["kafka:9092"] "billing" "orders")
          always_ack 3 no_backoff rt0
        = (Panic "invalid memory address or nil pointer dereference",
           NewKafkaReceiver ["kafka:9092"] "billing" "orders", rt')
        /\ running rt' = running rt0
        /\ contexts rt' = contexts rt0).
Proof.
  destruct (shutdown_nil_until_connected chan_max_amd64 goka_down always_ack 3 no_backoff
              ["kafka:9092"] "billing" "orders"
              (NewKafkaReceiver ["kafka:9092"] "billing" "orders") rt0 eq_refl)
    as (_ & _ & _ & Hs & Hc).
  split; [reflexivity|]. split; [reflexivity|]. split; [exact Hs|].
  apply (Hc "kafka: client has run out of available brokers"). reflexivity.
Defined.

(** * Further properties of the receiver and of the callback *)

(** ** The dead-letter topic name *)

Lemma string_length_app (a b : string) :
  String.length (a +:+ b) = (String.length a + String.length b)%nat.
Proof. induction a as [|c a IH]; simpl; [|rewrite IH]; reflexivity. Qed.

Lemma string_app_cancel_r (a b s : string) : a +:+ s = b +:+ s -> a = b.
Proof.
  revert b. induction a as [|c a IH]; intros [|d b] H.
  - reflexivity.
  - exfalso. apply (f_equal String.length) in H.
    rewrite !string_length_app in H. simpl in H. lia.
  - exfalso. apply (f_equal String.length) in H.
    rewrite !string_length_app in H. simpl in H. lia.
  - change (String c (a +:+ s) = String d (b +:+ s)) in H.
    injection H as -> H. f_equal. apply IH. exact H.
Qed.

(** X1.  The dead-letter topic of a receiver is never its own source topic:
    what the callback dead-letters does not come back as its input. *)
Theorem error_topic_is_not_source (bs : list string) (grp T : string) :
  errorTopic (NewKafkaReceiver bs grp T) <> topic (NewKafkaReceiver bs grp T).
Proof.
  cbn [errorTopic topic NewKafkaReceiver]. intros H.
  apply (f_equal String.length) in H.
  rewrite string_length_app in H. simpl in H. lia.
Qed.

(** X2.  Receivers with the same dead-letter topic read the same source
    topic: two source topics never share a dead-letter topic. *)
Theorem error_topic_injective (bs bs' : list string) (grp grp' T T' : string) :
  errorTopic (NewKafkaReceiver bs grp T) = errorTopic (NewKafkaReceiver bs' grp' T') ->
  T = T'.
Proof. cbn [errorTopic NewKafkaReceiver]. apply string_app_cancel_r. Qed.

Lemma error_topic_injective_witness :
  errorTopic (NewKafkaReceiver ["kafka:9092"] "billing" "orders")
  = errorTopic (NewKafkaReceiver ["kafka:9093"] "audit" "orders")
  /\ "orders" = "orders".
Proof.
  split; [reflexivity|].
  apply (error_topic_injective ["kafka:9092"] ["kafka:9093"] "billing" "audit"
           "orders" "orders").
  reflexivity.
Defined.

(** ** Connecting, reconnecting and shutting down *)

Lemma insert_last {A : Type} (l : list A) (x y : A) :
  <[length l := y]> (l ++ [x]) = l ++ [y].
Proof.
  rewrite insert_app_r_alt by apply Nat.le_refl.
  rewrite Nat.sub_diag. reflexivity.
Qed.

(** X3.  When goka.NewProcessor succeeds, ConnectCustomRetry returns nil,
    keeps brokers, group and topics of the receiver, makes one new context,
    not cancelled, starts one processor under it on the source topic with the
    callback built for the receiver's dead-letter topic, and stores the
    cancel function of that context.  Shutdown then returns nil and cancels
    exactly that context; the processor entry stays, and a second Shutdown
    changes nothing. *)
Theorem connect_then_shutdown
    (lim : Z) (goka : Goka) (q : KafkaReceiver) (msgs : Consumer) (maxRetries : Z)
    (calc : Z -> Z) (rt : Runtime) :
  NewProcessor goka (brokers q) (group q) (topic q) = None ->
  exists (q' : KafkaReceiver) (rt1 rt2 rt3 : Runtime),
    ConnectCustomRetry lim goka q msgs maxRetries calc rt = (Ret None, q', rt1)
    /\ brokers q' = brokers q /\ group q' = group q
    /\ topic q' = topic q /\ errorTopic q' = errorTopic q
    /\ shutdown q' = Some (length (contexts rt))
    /\ contexts rt1 = contexts rt ++ [false]
    /\ running rt1
       = running rt ++
         [(length (contexts rt),
           mkGraph (group q) (topic q)
             (kafkaMsgProcessor lim goka msgs (brokers q) (errorTopic q) maxRetries calc))]
    /\ Shutdown q' rt1 = (Ret None, rt2)
    /\ contexts rt2 = contexts rt ++ [true]
    /\ running rt2 = running rt1
    /\ Shutdown q' rt2 = (Ret None, rt3)
    /\ contexts rt3 = contexts rt2
    /\ running rt3 = running rt1.
Proof.
  intros Hp. unfold ConnectCustomRetry. rewrite startConsumer_ok by exact Hp.
  eexists. eexists. eexists. eexists.
  split; [reflexivity|]. do 7 (split; [reflexivity|]).
  unfold Shutdown, cancel, rlogf. cbn [shutdown contexts running rlog].
  split; [reflexivity|]. cbn [contexts running rlog].
  rewrite insert_last.
  split; [reflexivity|]. split; [reflexivity|]. split; [reflexivity|].
  cbn [contexts running rlog]. rewrite insert_last. split; reflexivity.
Qed.

Lemma connect_then_shutdown_witness :
  NewProcessor goka_up (brokers (NewKafkaReceiver ["kafka:9092"] "billing" "orders"))
    (group (NewKafkaReceiver ["kafka:9092"] "billing" "orders"))
    (topic (NewKafkaReceiver ["kafka:9092"] "billing" "orders")) = None
  /\ exists (q' : KafkaReceiver) (rt1 rt2 rt3 : Runtime),
       ConnectCustomRetry chan_max_amd64 goka_up (NewKafkaReceiver ["kafka:9092"] "billing" "orders")
         always_ack 3 no_backoff rt0 = (Ret None, q', rt1)
       /\ brokers q' = ["kafka:9092"] /\ group q' = "billing"
       /\ topic q' = "orders" /\ errorTopic q' = "orders.errors"
       /\ shutdown q' = Some (length (contexts rt0))
       /\ contexts rt1 = contexts rt0 ++ [false]
       /\ running rt1
          = running rt0 ++
            [(length (contexts rt0),
              mkGraph "billing" "orders"
                (kafkaMsgProcessor chan_max_amd64 goka_up always_ack ["kafka:9092"] "orders.errors" 3
                   no_backoff))]
       /\ Shutdown q' rt1 = (Ret None, rt2)
       /\ contexts rt2 = contexts rt0 ++ [true]
       /\ running rt2 = running rt1
       /\ Shutdown q' rt2 = (Ret None, rt3)
       /\ contexts rt3 = contexts rt2
       /\ running rt3 = running rt1.
Proof.
  split; [reflexivity|].
  apply (connect_then_shutdown chan_max_amd64 goka_up (NewKafkaReceiver ["kafka:9092"] "billing" "orders")
           always_ack 3 no_backoff rt0).
  reflexivity.
Defined.

(** X4.  Connecting a connected receiver again overwrites the stored cancel
    function: after two successful connects both processors run, Shutdown
    cancels only the context of the second, and the context of the first is
    left not cancelled, out of reach of the receiver. *)
Theorem reconnect_leaves_first_processor
    (lim : Z) (goka goka' : Goka) (q : KafkaReceiver) (msgs msgs' : Consumer)
    (maxRetries maxRetries' : Z) (calc calc' : Z -> Z) (rt : Runtime) :
  NewProcessor goka (brokers q) (group q) (topic q) = None ->
  NewProcessor goka' (brokers q) (group q) (topic q) = None ->
  exists (q1 q2 : KafkaReceiver) (rt1 rt2 rt3 : Runtime),
    ConnectCustomRetry lim goka q msgs maxRetries calc rt = (Ret None, q1, rt1)
    /\ ConnectCustomRetry lim goka' q1 msgs' maxRetries' calc' rt1 = (Ret None, q2, rt2)
    /\ map fst (running rt2)
       = map fst (running rt) ++ [length (contexts rt); S (length (contexts rt))]
    /\ shutdown q2 = Some (S (length (contexts rt)))
    /\ Shutdown q2 rt2 = (Ret None, rt3)
    /\ contexts rt3 = contexts rt ++ [false; true]
    /\ running rt3 = running rt2.
Proof.
  intros Hp Hp'. unfold ConnectCustomRetry at 1. rewrite startConsumer_ok by exact Hp.
  eexists. eexists. eexists. eexists. eexists.
  split; [reflexivity|].
  unfold ConnectCustomRetry. rewrite startConsumer_ok by exact Hp'.
  cbn [brokers group topic errorTopic contexts running rlog].
  split; [reflexivity|].
  split. { cbn [running contexts]. rewrite !map_app, <- app_assoc, length_app.
           cbn [map fst length app]. rewrite Nat.add_1_r. reflexivity. }
  split. { cbn [shutdown contexts]. rewrite length_app, Nat.add_1_r. reflexivity. }
  unfold Shutdown, cancel, rlogf. cbn [shutdown contexts running rlog].
  split; [reflexivity|]. cbn [contexts running rlog].
  split; [|reflexivity].
  replace (length (contexts rt ++ [false])) with (length (contexts rt ++ [false]) + 0)%nat
    by apply Nat.add_0_r.
  rewrite insert_app_r. cbn. rewrite <- app_assoc. reflexivity.
Qed.

Lemma reconnect_leaves_first_processor_witness :
  NewProcessor goka_up ["kafka:9092"] "billing" "orders" = None
  /\ exists (q1 q2 : KafkaReceiver) (rt1 rt2 rt3 : Runtime),
       ConnectCustomRetry chan_max_amd64 goka_up (NewKafkaReceiver ["kafka:9092"] "billing" "orders")
         always_ack 3 no_backoff rt0 = (Ret None, q1, rt1)
       /\ ConnectCustomRetry chan_max_amd64 goka_up q1 always_nack 0 no_backoff rt1 = (Ret None, q2, rt2)
       /\ map fst (running rt2)
          = map fst (running rt0) ++ [length (contexts rt0); S (length (contexts rt0))]
       /\ shutdown q2 = Some (S (length (contexts rt0)))
       /\ Shutdown q2 rt2 = (Ret None, rt3)
       /\ contexts rt3 = contexts rt0 ++ [false; true]
       /\ running rt3 = running rt2.
Proof.
  split; [reflexivity|].
  apply (reconnect_leaves_first_processor chan_max_amd64 goka_up goka_up
           (NewKafkaReceiver ["kafka:9092"] "billing" "orders")
           always_ack always_nack 3 0 no_backoff no_backoff rt0); reflexivity.
Defined.

(** X5 is [connect_error_after_connect], stated above with the error path
    of ConnectCustomRetry; here it is used on a receiver connected once. *)
Lemma connect_error_after_connect_witness :
  shutdown (mkKafkaReceiver ["kafka:9092"] "billing" "orders" "orders.errors" (Some 0%nat))
  = Some 0%nat
  /\ NewProcessor goka_down ["kafka:9092"] "billing" "orders"
     = Some "kafka: client has run out of available brokers"
  /\ exists rt',
       ConnectCustomRetry chan_max_amd64 goka_down
         (mkKafkaReceiver ["kafka:9092"] "billing" "orders" "orders.errors" (Some 0%nat))
         always_ack 3 no_backoff (mkRuntime [false] [] [])
       = (Ret (Some "kafka: client has run out of available brokers"),
          mkKafkaReceiver ["kafka:9092"] "billing" "orders" "orders.errors" (Some 0%nat),
          rt')
       /\ running rt' = running (mkRuntime [false] [] [])
       /\ contexts rt' = <[0%nat := true]> (contexts (mkRuntime [false] [] [])).
Proof.
  split; [reflexivity|]. split; [reflexivity|].
  apply (connect_error_after_connect chan_max_amd64 goka_down
           (mkKafkaReceiver ["kafka:9092"] "billing" "orders" "orders.errors" (Some 0%nat))
           always_ack 3 no_backoff (mkRuntime [false] [] [])
           "kafka: client has run out of available brokers" 0%nat); reflexivity.
Defined.

(** ** The retry budget, for any consumer *)

Lemma finishes_app (a b : list Event) : finishes (a ++ b) = finishes a ++ finishes b.
Proof. induction a as [|[] a IH]; simpl; congruence. Qed.

Lemma finishes_retry_evs (calc : Z -> Z) (db : DataBlock) (n : nat) :
  forall retries, finishes (retry_evs calc db retries n) = [].
Proof. induction n as [|n IH]; intros retries; simpl; [|rewrite IH]; reflexivity. Qed.

(** The timers of n retries counted from [retries]. *)
Lemma timers_retry_evs_from (calc : Z -> Z) (db : DataBlock) (n : nat) :
  forall retries,
    timers (retry_evs calc db retries n)
    = map (fun i => int_mul (calc (retries + Z.of_nat i)) Millisecond) (seq 0 n).
Proof.
  induction n as [|n IH]; intros retries; [reflexivity|].
  cbn [retry_evs app timers seq map]. rewrite IH, Z.add_0_r. f_equal.
  rewrite <- seq_shift, map_map. apply map_ext. intros i. do 2 f_equal. lia.
Qed.

Lemma timers_retry_evs_backoffs (calc : Z -> Z) (db : DataBlock) (n : nat) :
  timers (retry_evs calc db 0 n) = backoffs calc n.
Proof. rewrite timers_retry_evs_from. reflexivity. Qed.

Section Budget.

Variable goka : Goka.
Variable output : Consumer.
Variable bs : list string.
Variable tp : string.
Variable maxRetries : Z.
Variable calc : Z -> Z.
Hypothesis Hmax : maxRetries <= int_max.

(** As [loop_runs], and moreover: the loop asks for the emitter only
    after as many retries as the budget still allowed. *)
Lemma loop_runs_exhausted (fuel : nat) :
  forall (data : list byte) (result : nat) (db : DataBlock) (retries : Z) (w : World),
    int_min <= retries ->
    (Z.to_nat (maxRetries - retries) < fuel)%nat ->
    exists (n : nat) (o : Outcome) (w' : World) (tail : list Event),
      loop goka output bs tp maxRetries calc fuel data result db retries w = Some (o, w')
      /\ trace w' = trace w ++ retry_evs calc db retries n ++ tail
      /\ loop_end goka bs tp data o tail
      /\ Z.of_nat n <= Z.max 0 (maxRetries - retries)
      /\ (emitters tail <> [] -> Z.of_nat n = Z.max 0 (maxRetries - retries)).
Proof.
  induction fuel as [|fuel IH]; intros data result db retries w Hlo Hfuel; [lia|].
  rewrite loop_S.
  destruct (recv result w) as [[res w1]|] eqn:Hrecv.
  - pose proof (trace_recv _ _ _ _ Hrecv) as Htr.
    destruct res.
    + exists O, Returned. eexists. eexists. split; [reflexivity|].
      simpl. rewrite Htr. split; [reflexivity|]. split; [constructor|].
      split; [lia|]. intros Habs. exfalso. apply Habs. reflexivity.
    + rewrite Z.geb_leb. destruct (Z.leb_spec maxRetries retries) as [Hge|Hlt].
      * exists O, Returned. rewrite deadLetter_spec. eexists. eexists.
        split; [reflexivity|]. simpl. rewrite Htr.
        split; [reflexivity|]. split; [constructor|]. split; lia.
      * assert (Hint : int_add retries 1 = retries + 1).
        { apply int_add_id. int_unfold. lia. }
        rewrite Hint.
        edestruct (IH data result db (retries + 1))
          as (n & o & w' & tail & Hl & Ht & He & Hn & Hx).
        { lia. } { lia. }
        exists (S n), o, w', tail. split; [exact Hl|].
        split; [|split; [exact He|split; [lia|intros Hne; specialize (Hx Hne); lia]]].
        rewrite Ht, trace_send_output. simpl. rewrite Htr.
        rewrite <- !app_assoc. reflexivity.
  - exists O, Blocked, w, []. split; [reflexivity|].
    simpl. rewrite app_nil_r. split; [reflexivity|]. split; [constructor|].
    split; [lia|]. intros Habs. exfalso. apply Habs. reflexivity.
Qed.

End Budget.

Lemma loop_end_cases (goka : Goka) (bs : list string) (tp : string) (data : list byte)
    (o : Outcome) (tail : list Event) :
  loop_end goka bs tp data o tail ->
  (emitters tail = [] /\ emits tail = [] /\ finishes tail = [] /\ timers tail = []
   /\ deliveries tail = [])
  \/ (o = Returned /\ emits tail = [] /\ finishes tail = [] /\ timers tail = []
      /\ deliveries tail = []
      /\ exists e, NewEmitter goka bs tp = Some e /\ emitters tail = [(bs, tp, Some e)])
  \/ (o = Returned /\ NewEmitter goka bs tp = None
      /\ emitters tail = [(bs, tp, None)] /\ emits tail = [(tp, "", data)]
      /\ finishes tail = [tp] /\ timers tail = [] /\ deliveries tail = []
      /\ last tail = Some (EvFinish tp)).
Proof.
  destruct 1.
  - left. repeat split.
  - left. repeat split.
  - unfold dead_evs. destruct (NewEmitter goka bs tp) as [e|] eqn:Hne.
    + right. left. repeat split. exists e. split; reflexivity.
    + right. right. destruct (EmitSync goka tp "" data); repeat split.
Qed.

(** X6.  Whatever the consumer does, when the channel can be made (its size
    maxRetries + 1 is neither negative nor more than the runtime makes) a
    message is put on the output channel at least once and at most
    max(0, maxRetries) + 1 times, always as the same item; the backoff
    function is called once per retry, on the counts 0, 1, ... in that
    order, and its result, taken as milliseconds in an int64 duration, is the
    timer that precedes the redelivery. *)
Theorem retry_budget
    (lim : Z) (goka : Goka) (output : Consumer) (bs : list string) (tp : string)
    (maxRetries : Z) (calc : Z -> Z) (msg : list byte) (w : World) :
  is_int maxRetries ->
  0 <= int_add maxRetries 1 <= lim ->
  exists (o : Outcome) (w' : World) (evs : list Event) (n : nat),
    kafkaMsgProcessor lim goka output bs tp maxRetries calc msg w = Some (o, w')
    /\ trace w' = trace w ++ evs
    /\ Z.of_nat n <= Z.max 0 maxRetries
    /\ deliveries evs
       = replicate (S n)
           (mkDataBlock msg (mkClosure (length (chans w)) true)
                            (mkClosure (length (chans w)) false))
    /\ timers evs = backoffs calc n.
Proof.
  intros Hint [Hpos Hlim].
  destruct (callback_runs lim goka output bs tp maxRetries calc msg w Hint)
    as [[Hneg _]|[_ (n & o & w' & tail & Hrun & Ht & He & Hn)]]; [lia|].
  exists o, w'. eexists. exists n.
  split; [exact Hrun|]. split; [exact Ht|]. split; [exact Hn|].
  destruct (loop_end_cases _ _ _ _ _ _ He)
    as [(_ & _ & _ & Hti & Hd)|[(_ & _ & _ & Hti & Hd & _)|(_ & _ & _ & _ & _ & Hti & Hd & _)]];
    rewrite !deliveries_app, !timers_app, deliveries_retry_evs,
      timers_retry_evs_backoffs, Hti, Hd, !app_nil_r; split; reflexivity.
Qed.

Lemma retry_budget_witness :
  is_int 3 /\ 0 <= int_add 3 1 <= chan_max_amd64 /\
  exists (o : Outcome) (w' : World) (evs : list Event) (n : nat),
    kafkaMsgProcessor chan_max_amd64 goka_up nack_three_then_ack ["kafka:9092"] "orders.errors" 3
      (Connect_retryFuncTime int_min) [x01; x02] world0 = Some (o, w')
    /\ trace w' = trace world0 ++ evs
    /\ Z.of_nat n <= Z.max 0 3
    /\ deliveries evs
       = replicate (S n)
           (mkDataBlock [x01; x02] (mkClosure (length (chans world0)) true)
                                   (mkClosure (length (chans world0)) false))
    /\ timers evs = backoffs (Connect_retryFuncTime int_min) n.
Proof.
  split; [int_unfold; lia|]. split; [split; vm_compute; discriminate|].
  apply (retry_budget chan_max_amd64 goka_up nack_three_then_ack ["kafka:9092"] "orders.errors" 3
           (Connect_retryFuncTime int_min) [x01; x02] world0).
  - int_unfold; lia.
  - split; vm_compute; discriminate.
Defined.

(** ** When the dead-letter branch runs *)

Lemma callback_runs_exhausted (lim : Z) (goka : Goka) (output : Consumer) (bs : list string)
    (tp : string) (maxRetries : Z) (calc : Z -> Z) (msg : list byte) (w : World) :
  is_int maxRetries ->
  0 <= int_add maxRetries 1 <= lim ->
  exists (n : nat) (o : Outcome) (w' : World) (tail : list Event),
    kafkaMsgProcessor lim goka output bs tp maxRetries calc msg w = Some (o, w')
    /\ trace w'
       = trace w
         ++ ([EvLog LPrint "Message received";
              EvMake (length (chans w)) (maxRetries + 1);
              EvOutput (mkDataBlock msg (mkClosure (length (chans w)) true)
                                        (mkClosure (length (chans w)) false))]
             ++ retry_evs calc
                  (mkDataBlock msg (mkClosure (length (chans w)) true)
                                   (mkClosure (length (chans w)) false)) 0 n)
         ++ tail
    /\ loop_end goka bs tp msg o tail
    /\ Z.of_nat n <= Z.max 0 maxRetries
    /\ (emitters tail <> [] -> Z.of_nat n = Z.max 0 maxRetries).
Proof.
  intros Hint [Hpos Hlim]. rewrite kafkaMsgProcessor_unfold.
  destruct (size_nonneg maxRetries Hint Hpos) as [Hsz Hrange].
  rewrite Hsz, make_ok by lia. cbn [logf emit chans trace].
  set (ch := length (chans w)).
  set (db := mkDataBlock msg (mkClosure ch true) (mkClosure ch false)).
  edestruct (loop_runs_exhausted goka output bs tp maxRetries calc) with (retries := 0)
    as (n & o & w' & tail & Hl & Ht & He & Hn & Hx).
  { destruct Hint. eassumption. }
  { int_unfold. lia. }
  { rewrite Z.sub_0_r. apply Nat.lt_succ_diag_r. }
  rewrite Z.sub_0_r in Hn, Hx.
  exists n, o, w', tail. split; [exact Hl|].
  split; [|split; [exact He|split; [exact Hn|exact Hx]]].
  rewrite Ht, trace_send_output. cbn [trace].
  rewrite <- !app_assoc. reflexivity.
Qed.

(** X7.  Whatever the consumer does, the callback asks for the dead-letter
    emitter at most once and calls EmitSync at most once per message; and
    when it has asked for the emitter it has returned, every delivery came
    before the request, and the deliveries number exactly
    max(0, maxRetries) + 1: nothing is dead-lettered before the retries are
    used up. *)
Theorem dead_letter_only_when_exhausted
    (lim : Z) (goka : Goka) (output : Consumer) (bs : list string) (tp : string)
    (maxRetries : Z) (calc : Z -> Z) (msg : list byte) (w : World) :
  is_int maxRetries ->
  0 <= int_add maxRetries 1 ->
  exists (o : Outcome) (w' : World) (pre tail : list Event),
    kafkaMsgProcessor lim goka output bs tp maxRetries calc msg w = Some (o, w')
    /\ trace w' = trace w ++ pre ++ tail
    /\ emitters pre = [] /\ emits pre = [] /\ deliveries tail = []
    /\ (length (emitters tail) <= 1)%nat
    /\ (length (emits tail) <= 1)%nat
    /\ (emitters tail <> [] ->
        o = Returned
        /\ Z.of_nat (length (deliveries pre)) = Z.max 0 maxRetries + 1).
Proof.
  intros Hint Hpos.
  destruct (Z.ltb_spec lim (int_add maxRetries 1)) as [Hbig|Hfit].
  { exists (Panicked "makechan: size out of range"),
      (logf LPrint "Message received" w), [EvLog LPrint "Message received"], [].
    split.
    { rewrite kafkaMsgProcessor_unfold, make_panics by (right; exact Hbig).
      reflexivity. }
    split; [reflexivity|]. repeat (split; [reflexivity|]).
    cbn [emitters emits length]. split; [lia|]. split; [lia|].
    intros Habs. exfalso. apply Habs. reflexivity. }
  destruct (callback_runs_exhausted lim goka output bs tp maxRetries calc msg w Hint
              (conj Hpos Hfit))
    as (n & o & w' & tail & Hrun & Ht & He & Hn & Hx).
  exists o, w'. eexists. exists tail.
  split; [exact Hrun|]. split; [exact Ht|].
  rewrite emitters_app, emits_app, deliveries_app.
  rewrite emitters_retry_evs, emits_retry_evs, deliveries_retry_evs.
  cbn [emitters emits deliveries app].
  split; [reflexivity|]. split; [reflexivity|].
  destruct (loop_end_cases _ _ _ _ _ _ He)
    as [(Hem & Hes & _ & _ & Hd)
       |[(Ho & Hes & _ & _ & Hd & e & _ & Hem)
        |(Ho & _ & Hem & Hes & _ & _ & Hd & _)]];
    rewrite Hem, Hes; cbn [length];
    (split; [exact Hd|]); (split; [lia|]); (split; [lia|]).
  - intros Habs. exfalso. apply Habs. reflexivity.
  - intros Hne. split; [exact Ho|].
    rewrite length_replicate. rewrite Hem in Hx. specialize (Hx Hne). lia.
  - intros Hne. split; [exact Ho|].
    rewrite length_replicate. rewrite Hem in Hx. specialize (Hx Hne). lia.
Qed.

Lemma dead_letter_only_when_exhausted_witness :
  is_int 1 /\ 0 <= int_add 1 1 /\
  exists (o : Outcome) (w' : World) (pre tail : list Event),
    kafkaMsgProcessor chan_max_amd64 goka_up always_nack ["kafka:9092"] "orders.errors" 1 no_backoff
      [x01; x02] world0 = Some (o, w')
    /\ trace w' = trace world0 ++ pre ++ tail
    /\ emitters pre = [] /\ emits pre = [] /\ deliveries tail = []
    /\ (length (emitters tail) <= 1)%nat
    /\ (length (emits tail) <= 1)%nat
    /\ (emitters tail <> [] ->
        o = Returned
        /\ Z.of_nat (length (deliveries pre)) = Z.max 0 1 + 1).
Proof.
  split; [int_unfold; lia|]. split; [vm_compute; discriminate|].
  apply (dead_letter_only_when_exhausted chan_max_amd64 goka_up always_nack ["kafka:9092"]
           "orders.errors" 1 no_backoff [x01; x02] world0).
  - int_unfold; lia.
  - vm_compute; discriminate.
Defined.

(** X8.  Whatever the consumer does and however the publish ends, an emitter
    that was created is finished, once, as the last thing the callback does;
    an emitter that could not be created is not finished, and without a
    request for an emitter nothing is finished. *)
Theorem emitter_always_finished
    (lim : Z) (goka : Goka) (output : Consumer) (bs : list string) (tp : string)
    (maxRetries : Z) (calc : Z -> Z) (msg : list byte) (w : World) :
  is_int maxRetries ->
  exists (o : Outcome) (w' : World) (evs : list Event),
    kafkaMsgProcessor lim goka output bs tp maxRetries calc msg w = Some (o, w')
    /\ trace w' = trace w ++ evs
    /\ ((emitters evs = [] /\ finishes evs = [])
        \/ (exists e, emitters evs = [(bs, tp, Some e)] /\ finishes evs = [])
        \/ (emitters evs = [(bs, tp, None)] /\ finishes evs = [tp]
            /\ last evs = Some (EvFinish tp))).
Proof.
  intros Hint.
  destruct (callback_runs lim goka output bs tp maxRetries calc msg w Hint)
    as [[_ Hp]|[_ (n & o & w' & tail & Hrun & Ht & He & _)]].
  - eexists. eexists. exists [EvLog LPrint "Message received"].
    split; [exact Hp|]. split; [reflexivity|]. left. split; reflexivity.
  - exists o, w'. eexists. split; [exact Hrun|]. split; [exact Ht|].
    rewrite !emitters_app, !finishes_app, emitters_retry_evs, finishes_retry_evs.
    cbn [emitters finishes app].
    destruct (loop_end_cases _ _ _ _ _ _ He)
      as [(Hem & _ & Hf & _)
         |[(_ & _ & Hf & _ & _ & e & _ & Hem)
          |(_ & _ & Hem & _ & Hf & _ & _ & Hl)]]; rewrite Hem, Hf.
    + left. split; reflexivity.
    + right. left. exists e. split; reflexivity.
    + right. right. split; [reflexivity|]. split; [reflexivity|].
      apply (proj2 (last_app_Some (_ :: _ :: _ :: retry_evs _ _ _ _) tail _)).
      left. exact Hl.
Qed.

Lemma emitter_always_finished_witness :
  is_int 1 /\
  exists (o : Outcome) (w' : World) (evs : list Event),
    kafkaMsgProcessor chan_max_amd64 goka_no_publish always_nack ["kafka:9092"] "orders.errors" 1
      no_backoff [x01; x02] world0 = Some (o, w')
    /\ trace w' = trace world0 ++ evs
    /\ ((emitters evs = [] /\ finishes evs = [])
        \/ (exists e, emitters evs = [(["kafka:9092"], "orders.errors", Some e)]
                      /\ finishes evs = [])
        \/ (emitters evs = [(["kafka:9092"], "orders.errors", None)]
            /\ finishes evs = ["orders.errors"]
            /\ last evs = Some (EvFinish "orders.errors"))).
Proof.
  split; [int_unfold; lia|].
  apply (emitter_always_finished chan_max_amd64 goka_no_publish always_nack ["kafka:9092"]
           "orders.errors" 1 no_backoff [x01; x02] world0).
  int_unfold; lia.
Defined.

(** ** Retry bounds for which no channel can be made *)

Lemma size_negative_iff (maxRetries : Z) :
  is_int maxRetries ->
  (int_add maxRetries 1 < 0 <-> maxRetries < -1 \/ maxRetries = int_max).
Proof.
  intros Hint. destruct (Z.eq_dec maxRetries int_max) as [->|Hne].
  - split; [right; reflexivity|]. intros _. vm_compute. reflexivity.
  - assert (Hsz : int_add maxRetries 1 = maxRetries + 1).
    { apply int_add_id. int_unfold. lia. }
    rewrite Hsz. split; [intros; left; lia|]. intros [Hlt|Heq]; [lia|contradiction].
Qed.



(** ** A consumer that does not answer *)

Lemma recv_none (ch : nat) (w : World) (c : Chan) :
  chans w !! ch = Some c -> chan_recv c = None -> recv ch w = None.
Proof. intros Hc Hr. unfold recv. rewrite Hc, Hr. reflexivity. Qed.

(** X10.  When the channel can be made (-1 <= maxRetries < int_max and
    maxRetries + 1 within what the runtime makes) and the consumer calls
    neither closure of the item it is given first, the callback stays
    blocked on its receive after that one
    delivery: no timer, no retry, no dead-letter, and no return that would
    let the next message of the partition in. *)
Theorem unanswered_delivery_blocks
    (lim : Z) (goka : Goka) (output : Consumer) (bs : list string) (tp : string)
    (maxRetries : Z) (calc : Z -> Z) (msg : list byte) (w : World) :
  -1 <= maxRetries < int_max ->
  maxRetries + 1 <= lim ->
  (forall d, output (length (deliveries (trace w))) d = []) ->
  exists w' : World,
    kafkaMsgProcessor lim goka output bs tp maxRetries calc msg w = Some (Blocked, w')
    /\ trace w'
       = trace w ++
         [EvLog LPrint "Message received";
          EvMake (length (chans w)) (maxRetries + 1);
          EvOutput (mkDataBlock msg (mkClosure (length (chans w)) true)
                                    (mkClosure (length (chans w)) false))].
Proof.
  intros Hk Hlim Hout.
  assert (Hsz : int_add maxRetries 1 = maxRetries + 1)
    by (apply int_add_id; int_unfold; lia).
  rewrite kafkaMsgProcessor_unfold, Hsz, make_ok by lia.
  cbn [logf emit chans trace].
  set (ch := length (chans w)).
  set (db := mkDataBlock msg (mkClosure ch true) (mkClosure ch false)).
  set (c0 := mkChan (maxRetries + 1) [] []).
  set (w1 := mkWorld (chans w ++ [c0]) _).
  assert (Hch1 : chans w1 !! ch = Some c0).
  { unfold w1, ch. cbn [chans]. apply list_lookup_middle. reflexivity. }
  assert (Hn : length (deliveries (trace w1)) = length (deliveries (trace w))).
  { unfold w1. cbn [trace]. rewrite !deliveries_app. cbn [deliveries].
    rewrite !app_nil_r. reflexivity. }
  pose proof (send_output_chans output db ch w1 c0 eq_refl eq_refl Hch1) as Hch2.
  rewrite Hn, Hout in Hch2. cbn [map sends foldl] in Hch2.
  rewrite loop_S.
  rewrite (recv_none ch _ c0);
    [ | rewrite Hch2; apply list_lookup_insert_eq; eapply lookup_lt_Some; exact Hch1
      | reflexivity ].
  eexists. split; [reflexivity|].
  rewrite trace_send_output. unfold w1. cbn [trace].
  rewrite <- !app_assoc. reflexivity.
Qed.

Lemma unanswered_delivery_blocks_witness :
  -1 <= 3 < int_max /\
  3 + 1 <= chan_max_amd64 /\
  (forall d, silent (length (deliveries (trace world0))) d = []) /\
  exists w' : World,
    kafkaMsgProcessor chan_max_amd64 goka_up silent ["kafka:9092"] "orders.errors" 3 no_backoff
      [x01; x02] world0 = Some (Blocked, w')
    /\ trace w'
       = trace world0 ++
         [EvLog LPrint "Message received";
          EvMake (length (chans world0)) (3 + 1);
          EvOutput (mkDataBlock [x01; x02] (mkClosure (length (chans world0)) true)
                                           (mkClosure (length (chans world0)) false))].
Proof.
  split; [int_unfold; lia|]. split; [lim_unfold; lia|].
  split; [intros; reflexivity|].
  apply (unanswered_delivery_blocks chan_max_amd64 goka_up silent ["kafka:9092"] "orders.errors" 3
           no_backoff [x01; x02] world0).
  - int_unfold; lia.
  - lim_unfold; lia.
  - intros; reflexivity.
Defined.

(** ** A consumer that rejects some deliveries and then accepts *)

Lemma chan_send_empty (size : Z) (v : bool) :
  1 <= size -> chan_send v (mkChan size [] []) = mkChan size [v] [].
Proof.
  intros Hs. unfold chan_send. cbn [buf cap length sendq].
  destruct (Z.ltb_spec (Z.of_nat 0) size); [reflexivity|lia].
Qed.

Section NackThenAck.

Variable goka : Goka.
Variable output : Consumer.
Variable bs : list string.
Variable tp : string.
Variable maxRetries : Z.
Variable calc : Z -> Z.
Variable data : list byte.
Variable result : nat.
Variable db : DataBlock.
Variable size : Z.
Variable n0 j : nat.

Hypothesis Hmax : maxRetries <= int_max.
Hypothesis Hsize : 1 <= size.
Hypothesis Hack : Ack db = mkClosure result true.
Hypothesis Hnack : Nack db = mkClosure result false.
Hypothesis Hrejects : forall n d, (n0 <= n < n0 + j)%nat -> output n d = [CallNack].
Hypothesis Haccepts : forall d, output (n0 + j)%nat d = [CallAck].

(** With [m] deliveries still to be rejected before the accepted one,
    the loop retries [m] times and then returns on the Ack. *)
Lemma loop_nack_then_ack (m : nat) :
  forall (fuel : nat) (retries : Z) (w : World),
    (m < fuel)%nat ->
    (m <= j)%nat ->
    int_min <= retries ->
    retries + Z.of_nat m <= maxRetries ->
    (length (deliveries (trace w)) + m = n0 + j + 1)%nat ->
    chans w !! result
    = Some (mkChan size [match m with O => true | S _ => false end] []) ->
    loop goka output bs tp maxRetries calc fuel data result db retries w
    = Some (Returned,
            logf LPrint "Success on message process"
              (mkWorld (<[result := mkChan size [] []]> (chans w))
                       (trace w ++ retry_evs calc db retries m))).
Proof.
  induction m as [|m IH]; intros fuel retries w Hfuel Hmj Hlo Hbudget Hcount Hch;
    (destruct fuel as [|fuel]; [lia|]); rewrite loop_S.
  - rewrite (recv_ok result w _ (mkChan size [] []) true Hch) by reflexivity.
    cbn [retry_evs]. rewrite app_nil_r. reflexivity.
  - rewrite (recv_ok result w _ (mkChan size [] []) false Hch) by reflexivity.
    rewrite Z.geb_leb. destruct (Z.leb_spec maxRetries retries) as [Hge|Hlt]; [lia|].
    assert (Hint : int_add retries 1 = retries + 1).
    { apply int_add_id. int_unfold. lia. }
    assert (Hlen : (result < length (chans w))%nat).
    { eapply lookup_lt_Some. exact Hch. }
    rewrite Hint.
    match goal with |- loop _ _ _ _ _ _ _ _ _ _ _ ?w2 = _ => set (w2' := w2) end.
    assert (Hch2 : chans w2'
                   = <[result := mkChan size [match m with O => true | S _ => false end] []]>
                       (chans w)).
    { unfold w2'.
      rewrite (send_output_chans output db result _ (mkChan size [] []) Hack Hnack).
      - cbn [logf emit chans trace]. rewrite !deliveries_app. cbn [deliveries].
        rewrite !app_nil_r, list_insert_insert_eq. f_equal.
        destruct m as [|m].
        + replace (length (deliveries (trace w))) with (n0 + j)%nat by lia.
          rewrite Haccepts. cbn [map call_val sends foldl].
          apply chan_send_empty. exact Hsize.
        + rewrite Hrejects by lia. cbn [map call_val sends foldl].
          apply chan_send_empty. exact Hsize.
      - cbn [logf emit chans]. apply list_lookup_insert_eq. exact Hlen. }
    rewrite (IH fuel (retries + 1) w2').
    + f_equal. f_equal. f_equal. apply world_eq; cbn [chans trace].
      * rewrite Hch2. apply list_insert_insert_eq.
      * unfold w2'. rewrite trace_send_output. cbn [logf emit trace].
        cbn [retry_evs]. rewrite <- !app_assoc. reflexivity.
    + lia.
    + lia.
    + lia.
    + lia.
    + unfold w2'. rewrite trace_send_output, deliveries_app, length_app.
      cbn [logf emit trace]. rewrite !deliveries_app. cbn [deliveries length].
      rewrite !app_nil_r. lia.
    + rewrite Hch2. apply list_lookup_insert_eq. exact Hlen.
Qed.

End NackThenAck.

(** X11.  When the channel can be made (0 <= maxRetries < int_max and
    maxRetries + 1 within what the runtime makes) and the consumer rejects
    the first j deliveries of a message, one Nack each, with j within the
    retry bound, and accepts the next one, the
    callback returns after exactly j + 1 deliveries of the same item and j
    timers, the backoffs of the counts 0 .. j-1; it asks for no emitter and
    dead-letters nothing, and its last act is the success line. *)
Theorem rejected_then_accepted
    (lim : Z) (goka : Goka) (output : Consumer) (bs : list string) (tp : string)
    (maxRetries : Z) (calc : Z -> Z) (msg : list byte) (w : World) (j : nat) :
  0 <= maxRetries < int_max ->
  maxRetries + 1 <= lim ->
  Z.of_nat j <= maxRetries ->
  (forall n d, (length (deliveries (trace w)) <= n < length (deliveries (trace w)) + j)%nat ->
               output n d = [CallNack]) ->
  (forall d, output (length (deliveries (trace w)) + j)%nat d = [CallAck]) ->
  exists (w' : World) (evs : list Event),
    kafkaMsgProcessor lim goka output bs tp maxRetries calc msg w = Some (Returned, w')
    /\ trace w' = trace w ++ evs
    /\ deliveries evs
       = replicate (S j)
           (mkDataBlock msg (mkClosure (length (chans w)) true)
                            (mkClosure (length (chans w)) false))
    /\ timers evs = backoffs calc j
    /\ emitters evs = [] /\ emits evs = []
    /\ last evs = Some (EvLog LPrint "Success on message process").
Proof.
  intros Hk Hlim Hj Hrej Hacc.
  assert (Hsz : int_add maxRetries 1 = maxRetries + 1)
    by (apply int_add_id; int_unfold; lia).
  rewrite kafkaMsgProcessor_unfold, Hsz, make_ok by lia.
  cbn [logf emit chans trace].
  set (ch := length (chans w)).
  set (db := mkDataBlock msg (mkClosure ch true) (mkClosure ch false)).
  set (c0 := mkChan (maxRetries + 1) [] []).
  set (w1 := mkWorld (chans w ++ [c0]) _).
  assert (Hch1 : chans w1 !! ch = Some c0).
  { unfold w1, ch. cbn [chans]. apply list_lookup_middle. reflexivity. }
  assert (Hn : length (deliveries (trace w1)) = length (deliveries (trace w))).
  { unfold w1. cbn [trace]. rewrite !deliveries_app. cbn [deliveries].
    rewrite !app_nil_r. reflexivity. }
  assert (Hch2 : chans (send_output output db w1) !! ch
                 = Some (mkChan (maxRetries + 1)
                           [match j with O => true | S _ => false end] [])).
  { rewrite (send_output_chans output db ch w1 c0 eq_refl eq_refl Hch1), Hn.
    rewrite list_lookup_insert_eq by (eapply lookup_lt_Some; exact Hch1).
    f_equal. destruct j as [|j'].
    - specialize (Hacc db). rewrite Nat.add_0_r in Hacc. rewrite Hacc.
      cbn [map call_val sends foldl]. apply chan_send_empty. lia.
    - rewrite Hrej by lia. cbn [map call_val sends foldl].
      apply chan_send_empty. lia. }
  assert (Hmax : maxRetries <= int_max) by lia.
  assert (Hsize : 1 <= maxRetries + 1) by lia.
  rewrite (loop_nack_then_ack goka output bs tp maxRetries calc msg ch db
             (maxRetries + 1) (length (deliveries (trace w))) j
             Hmax Hsize eq_refl eq_refl Hrej Hacc j);
    [ | lia | lia | int_unfold; lia | lia
      | rewrite trace_send_output, deliveries_app, length_app, Hn; cbn [deliveries length]; lia
      | exact Hch2 ].
  eexists.
  exists (([EvLog LPrint "Message received"; EvMake ch (maxRetries + 1); EvOutput db]
           ++ retry_evs calc db 0 j)
          ++ [EvLog LPrint "Success on message process"]).
  split; [reflexivity|]. cbn [logf emit trace].
  split.
  { rewrite trace_send_output. unfold w1. cbn [trace].
    rewrite <- !app_assoc. reflexivity. }
  rewrite !deliveries_app, !timers_app, !emitters_app, !emits_app.
  rewrite deliveries_retry_evs, timers_retry_evs_backoffs, emitters_retry_evs,
    emits_retry_evs.
  cbn [deliveries timers emitters emits app]. rewrite !app_nil_r.
  repeat (split; [reflexivity|]).
  exact (last_snoc _ (_ :: _ :: _ :: retry_evs _ _ _ _)).
Qed.

Lemma rejected_then_accepted_witness :
  0 <= 3 < int_max /\ 3 + 1 <= chan_max_amd64 /\ Z.of_nat 3 <= 3 /\
  (forall n d, (length (deliveries (trace world0)) <= n
                < length (deliveries (trace world0)) + 3)%nat ->
               nack_three_then_ack n d = [CallNack]) /\
  (forall d, nack_three_then_ack (length (deliveries (trace world0)) + 3)%nat d = [CallAck]) /\
  exists (w' : World) (evs : list Event),
    kafkaMsgProcessor chan_max_amd64 goka_up nack_three_then_ack ["kafka:9092"] "orders.errors" 3
      no_backoff [x01; x02] world0 = Some (Returned, w')
    /\ trace w' = trace world0 ++ evs
    /\ deliveries evs
       = replicate 4
           (mkDataBlock [x01; x02] (mkClosure (length (chans world0)) true)
                                   (mkClosure (length (chans world0)) false))
    /\ timers evs = backoffs no_backoff 3
    /\ emitters evs = [] /\ emits evs = []
    /\ last evs = Some (EvLog LPrint "Success on message process").
Proof.
  assert (Hrej : forall n d, (length (deliveries (trace world0)) <= n
                              < length (deliveries (trace world0)) + 3)%nat ->
                             nack_three_then_ack n d = [CallNack]).
  { intros n d Hn. unfold nack_three_then_ack.
    destruct (Nat.ltb_spec n 3); [reflexivity|]. simpl in Hn. lia. }
  split; [int_unfold; lia|]. split; [lim_unfold; lia|].
  split; [simpl; lia|]. split; [exact Hrej|].
  split; [intros; reflexivity|].
  apply (rejected_then_accepted chan_max_amd64 goka_up nack_three_then_ack ["kafka:9092"] "orders.errors" 3
           no_backoff [x01; x02] world0 3).
  - int_unfold; lia.
  - lim_unfold; lia.
  - simpl; lia.
  - exact Hrej.
  - intros; reflexivity.
Defined.

(** ** Both closures called on one item *)

(** X12.  When the channel can be made (maxRetries + 1 within what the
    runtime makes), the consumer calls Nack and then Ack on the first item
    and the bound allows a retry (1 <= maxRetries < int_max), the Nack
    decides the first attempt and the Ack is left on the channel: the item
    is delivered once more and the callback
    then returns as on a success, whatever the consumer calls, or fails to
    call, on the redelivered item. *)
Theorem both_closures_on_one_item
    (lim : Z) (goka : Goka) (output : Consumer) (bs : list string) (tp : string)
    (maxRetries : Z) (calc : Z -> Z) (msg : list byte) (w : World) :
  1 <= maxRetries < int_max ->
  maxRetries + 1 <= lim ->
  (forall d, output (length (deliveries (trace w))) d = [CallNack; CallAck]) ->
  exists w' : World,
    kafkaMsgProcessor lim goka output bs tp maxRetries calc msg w = Some (Returned, w')
    /\ trace w'
       = trace w ++
         [EvLog LPrint "Message received";
          EvMake (length (chans w)) (maxRetries + 1);
          EvOutput (mkDataBlock msg (mkClosure (length (chans w)) true)
                                    (mkClosure (length (chans w)) false));
          EvLog LDebug "Waiting on retry %v for %v";
          EvTimer (int_mul (calc 0) Millisecond);
          EvLog LPrint "Retry %v";
          EvOutput (mkDataBlock msg (mkClosure (length (chans w)) true)
                                    (mkClosure (length (chans w)) false));
          EvLog LPrint "Success on message process"].
Proof.
  intros Hk Hlim Hout.
  assert (Hsz : int_add maxRetries 1 = maxRetries + 1)
    by (apply int_add_id; int_unfold; lia).
  rewrite kafkaMsgProcessor_unfold, Hsz, make_ok by lia.
  cbn [logf emit chans trace].
  set (ch := length (chans w)).
  set (db := mkDataBlock msg (mkClosure ch true) (mkClosure ch false)).
  set (c0 := mkChan (maxRetries + 1) [] []).
  set (w1 := mkWorld (chans w ++ [c0]) _).
  assert (Hch1 : chans w1 !! ch = Some c0).
  { unfold w1, ch. cbn [chans]. apply list_lookup_middle. reflexivity. }
  assert (Hlen1 : (ch < length (chans w1))%nat).
  { eapply lookup_lt_Some. exact Hch1. }
  assert (Hn : length (deliveries (trace w1)) = length (deliveries (trace w))).
  { unfold w1. cbn [trace]. rewrite !deliveries_app. cbn [deliveries].
    rewrite !app_nil_r. reflexivity. }
  pose proof (send_output_chans output db ch w1 c0 eq_refl eq_refl Hch1) as Hch2.
  rewrite Hn, Hout in Hch2. cbn [map call_val] in Hch2.
  rewrite (sends_room [false; true] c0) in Hch2;
    [ | reflexivity | cbn [c0 buf cap length]; lia ].
  cbn [c0 cap buf app] in Hch2.
  destruct (Z.to_nat maxRetries) as [|fuel] eqn:Hfuel; [lia|].
  rewrite loop_S.
  erewrite recv_ok;
    [ | rewrite Hch2; apply list_lookup_insert_eq; exact Hlen1 | reflexivity ].
  rewrite Z.geb_leb. destruct (Z.leb_spec maxRetries 0) as [Hge|Hlt]; [lia|].
  match goal with
  | |- context [loop _ _ _ _ _ _ _ _ _ _ _ ?w3] => set (w3' := w3)
  end.
  set (c1 := mkChan (maxRetries + 1) [true] []).
  assert (Hch3 : exists vs, chans w3' !! ch = Some (sends vs c1)).
  { eexists. unfold w3'.
    rewrite (send_output_chans output db ch _ c1 eq_refl eq_refl).
    - apply list_lookup_insert_eq. cbn [logf emit chans].
      rewrite Hch2, !length_insert. exact Hlen1.
    - cbn [logf emit chans]. apply list_lookup_insert_eq.
      rewrite Hch2, length_insert. exact Hlen1. }
  destruct Hch3 as [vs Hch3].
  assert (Hwf : chan_wf c1) by (left; reflexivity).
  destruct (sends_pending vs c1 Hwf) as [Hp _].
  destruct (chan_recv_pending _ true vs Hp) as (c' & Hrecv & _).
  rewrite loop_S.
  erewrite recv_ok; [ | exact Hch3 | exact Hrecv ].
  eexists. split; [reflexivity|].
  cbn [logf emit trace]. unfold w3'. rewrite trace_send_output.
  cbn [logf emit trace]. rewrite trace_send_output. unfold w1. cbn [trace].
  rewrite <- !app_assoc. reflexivity.
Qed.

Lemma both_closures_on_one_item_witness :
  1 <= 3 < int_max /\
  3 + 1 <= chan_max_amd64 /\
  (forall d, nack_and_ack (length (deliveries (trace world0))) d = [CallNack; CallAck]) /\
  exists w' : World,
    kafkaMsgProcessor chan_max_amd64 goka_up nack_and_ack ["kafka:9092"] "orders.errors" 3 no_backoff
      [x01; x02] world0 = Some (Returned, w')
    /\ trace w'
       = trace world0 ++
         [EvLog LPrint "Message received";
          EvMake (length (chans world0)) (3 + 1);
          EvOutput (mkDataBlock [x01; x02] (mkClosure (length (chans world0)) true)
                                           (mkClosure (length (chans world0)) false));
          EvLog LDebug "Waiting on retry %v for %v";
          EvTimer (int_mul (no_backoff 0) Millisecond);
          EvLog LPrint "Retry %v";
          EvOutput (mkDataBlock [x01; x02] (mkClosure (length (chans world0)) true)
                                           (mkClosure (length (chans world0)) false));
          EvLog LPrint "Success on message process"].
Proof.
  split; [int_unfold; lia|]. split; [lim_unfold; lia|].
  split; [intros; reflexivity|].
  apply (both_closures_on_one_item chan_max_amd64 goka_up nack_and_ack ["kafka:9092"] "orders.errors" 3
           no_backoff [x01; x02] world0).
  - int_unfold; lia.
  - lim_unfold; lia.
  - intros; reflexivity.
Defined.

(** ** The callback and the channels of other messages *)


Section Frame.

Variable goka : Goka.
Variable output : Consumer.
Variable bs : list string.
Variable tp : string.
Variable maxRetries : Z.
Variable calc : Z -> Z.
Variable data : list byte.
Variable db : DataBlock.
Variable base : list Chan.

Hypothesis Hack : Ack db = mkClosure (length base) true.
Hypothesis Hnack : Nack db = mkClosure (length base) false.


End Frame.



(** ** The schedule of the default policy *)

(** X14.  The timer of retry n under the function of Connect: the product with
    time.Millisecond is an int64 of nanoseconds, exact up to n = 33, that is
    2^33 seconds, and wrapped around from n = 34 on. *)
Theorem default_timer_exact (indef n : Z) :
  0 <= n <= 53 ->
  (int_mul (Connect_retryFuncTime indef n) Millisecond = 1000000000 * 2 ^ n
   <-> n <= 33).
Proof.
  intros Hn. rewrite retryFuncTime_exact by exact Hn. unfold Millisecond.
  assert (H0 : 0 < 2 ^ n) by (apply Z.pow_pos_nonneg; lia).
  split.
  - intros Heq. destruct (Z.le_gt_cases n 33) as [Hle|Hgt]; [exact Hle|exfalso].
    assert (H1 : 2 ^ 34 <= 2 ^ n) by (apply Z.pow_le_mono_r; lia).
    change (2 ^ 34) with 17179869184 in H1.
    pose proof (wrap_is_int (1000 * 2 ^ n * 1000000)) as Hw.
    unfold int_mul in Heq. rewrite Heq in Hw. int_unfold. lia.
  - intros Hle.
    assert (H1 : 2 ^ n <= 2 ^ 33) by (apply Z.pow_le_mono_r; lia).
    change (2 ^ 33) with 8589934592 in H1.
    rewrite int_mul_id; [lia|]. int_unfold. lia.
Qed.

Lemma default_timer_exact_witness :
  0 <= 2 <= 53 /\
  (int_mul (Connect_retryFuncTime int_min 2) Millisecond = 1000000000 * 2 ^ 2
   <-> 2 <= 33).
Proof. split; [lia|]. apply (default_timer_exact int_min 2). lia. Defined.

Lemma emitters_dead_evs (goka : Goka) (bs : list string) (tp : string) (data : list byte) :
  emitters (dead_evs goka bs tp data) = [(bs, tp, NewEmitter goka bs tp)].
Proof.
  unfold dead_evs. destruct (NewEmitter goka bs tp); [reflexivity|].
  destruct (EmitSync goka tp "" data); reflexivity.
Qed.

(** The whole trace of a message that every delivery rejects. *)
Lemma callback_all_nack (lim : Z) (goka : Goka) (output : Consumer) (bs : list string) (tp : string)
    (k : Z) (calc : Z -> Z) (msg : list byte) (w : World) :
  0 <= k < int_max ->
  k + 1 <= lim ->
  (forall n d, output n d = [CallNack]) ->
  exists w' : World,
    kafkaMsgProcessor lim goka output bs tp k calc msg w = Some (Returned, w')
    /\ trace w'
       = trace w
         ++ ([EvLog LPrint "Message received";
              EvMake (length (chans w)) (k + 1);
              EvOutput (mkDataBlock msg (mkClosure (length (chans w)) true)
                                        (mkClosure (length (chans w)) false))]
             ++ retry_evs calc
                  (mkDataBlock msg (mkClosure (length (chans w)) true)
                                   (mkClosure (length (chans w)) false)) 0 (Z.to_nat k))
         ++ dead_evs goka bs tp msg.
Proof.
  intros Hk Hlim Hout.
  assert (Hsz : int_add k 1 = k + 1) by (apply int_add_id; int_unfold; lia).
  rewrite kafkaMsgProcessor_unfold, Hsz, make_ok by lia.
  cbn [logf emit chans trace].
  set (ch := length (chans w)).
  set (db := mkDataBlock msg (mkClosure ch true) (mkClosure ch false)).
  set (w1 := mkWorld (chans w ++ [mkChan (k + 1) [] []]) _).
  assert (Hch1 : chans w1 !! ch = Some (mkChan (k + 1) [] [])).
  { unfold w1, ch. cbn [chans]. apply list_lookup_middle. reflexivity. }
  assert (Hch2 : chans (send_output output db w1) !! ch = Some (mkChan (k + 1) [false] [])).
  { rewrite (send_output_chans output db ch w1 _ eq_refl eq_refl Hch1), Hout.
    cbn [map call_val sends foldl].
    rewrite list_lookup_insert_eq by (eapply lookup_lt_Some; exact Hch1).
    f_equal. apply chan_send_empty. lia. }
  assert (Hmax : k <= int_max) by lia.
  assert (Hsize : 1 <= k + 1) by lia.
  rewrite (loop_all_nack goka output bs tp k calc msg ch db (k + 1)
             Hmax Hsize eq_refl eq_refl Hout (S (Z.to_nat k)) 0 _);
    [ | int_unfold; lia | rewrite Z.sub_0_r; lia | exact Hch2 ].
  rewrite deadLetter_spec. cbn [chans trace]. rewrite Z.sub_0_r.
  eexists. split; [reflexivity|]. cbn [trace].
  rewrite trace_send_output. unfold w1. cbn [trace].
  rewrite <- !app_assoc. reflexivity.
Qed.

(** X15.  With the channel limit of linux/amd64 ([chan_max_amd64]), Connect
    on a receiver whose processor can be made: it returns nil
    and starts one processor on the receiver's group and source topic; under
    a consumer that rejects every delivery, each message given to that
    processor's callback is delivered four times, with timers of one, two
    and four seconds before the redeliveries, and the emitter for the
    receiver's dead-letter topic is then asked for, once. *)
Theorem connect_default_schedule
    (indef : Z) (goka : Goka) (q : KafkaReceiver) (msgs : Consumer) (rt : Runtime) :
  NewProcessor goka (brokers q) (group q) (topic q) = None ->
  (forall n d, msgs n d = [CallNack]) ->
  exists (q' : KafkaReceiver) (rt' : Runtime) (g : Graph),
    Connect chan_max_amd64 indef goka q msgs rt = (Ret None, q', rt')
    /\ running rt' = running rt ++ [(length (contexts rt), g)]
    /\ g_group g = group q /\ g_input g = topic q
    /\ forall (msg : list byte) (w : World),
         exists (w' : World) (evs : list Event),
           g_callback g msg w = Some (Returned, w')
           /\ trace w' = trace w ++ evs
           /\ length (deliveries evs) = 4%nat
           /\ timers evs = [1000000000; 2000000000; 4000000000]
           /\ emitters evs
              = [(brokers q, errorTopic q, NewEmitter goka (brokers q) (errorTopic q))].
Proof.
  intros Hp Hout. unfold Connect, ConnectCustomRetry.
  rewrite startConsumer_ok by exact Hp.
  eexists. eexists. eexists. split; [reflexivity|]. cbn [running].
  split; [reflexivity|]. cbn [g_group g_input g_callback].
  split; [reflexivity|]. split; [reflexivity|].
  intros msg w.
  destruct (callback_all_nack chan_max_amd64 goka msgs (brokers q) (errorTopic q) 3
              (Connect_retryFuncTime indef) msg w) as (w' & Hrun & Ht);
    [int_unfold; lia|lim_unfold; lia|exact Hout|].
  exists w'. eexists. split; [exact Hrun|]. split; [exact Ht|].
  rewrite !deliveries_app, !timers_app, !emitters_app.
  rewrite deliveries_retry_evs, timers_retry_evs_backoffs, emitters_retry_evs.
  rewrite deliveries_dead_evs, emitters_dead_evs.
  destruct (loop_end_cases goka (brokers q) (errorTopic q) msg Returned _
              (end_dead goka (brokers q) (errorTopic q) msg))
    as [(_ & _ & _ & Hti & _)|[(_ & _ & _ & Hti & _)|(_ & _ & _ & _ & _ & Hti & _)]];
    rewrite Hti; cbn [deliveries timers emitters app];
    (split; [reflexivity|]); (split; [|reflexivity]);
    rewrite app_nil_r; vm_compute; reflexivity.
Qed.

Lemma connect_default_schedule_witness :
  NewProcessor goka_up ["kafka:9092"] "billing" "orders" = None /\
  (forall n d, always_nack n d = [CallNack]) /\
  exists (q' : KafkaReceiver) (rt' : Runtime) (g : Graph),
    Connect chan_max_amd64 int_min goka_up (NewKafkaReceiver ["kafka:9092"] "billing" "orders")
      always_nack rt0 = (Ret None, q', rt')
    /\ running rt' = running rt0 ++ [(length (contexts rt0), g)]
    /\ g_group g = "billing" /\ g_input g = "orders"
    /\ forall (msg : list byte) (w : World),
         exists (w' : World) (evs : list Event),
           g_callback g msg w = Some (Returned, w')
           /\ trace w' = trace w ++ evs
           /\ length (deliveries evs) = 4%nat
           /\ timers evs = [1000000000; 2000000000; 4000000000]
           /\ emitters evs
              = [(["kafka:9092"], "orders.errors",
                  NewEmitter goka_up ["kafka:9092"] "orders.errors")].
Proof.
  split; [reflexivity|]. split; [intros; reflexivity|].
  apply (connect_default_schedule int_min goka_up
           (NewKafkaReceiver ["kafka:9092"] "billing" "orders") always_nack rt0).
  - reflexivity.
  - intros; reflexivity.
Defined.

(** ** No retry allowed *)

(** X16.  With the channel limit of linux/amd64 ([chan_max_amd64]) and
    maxRetries 0 or -1, a Nack as first call on the first delivery
    sends the message to the dead-letter branch at once, whatever else the
    consumer calls on the item: one delivery, no timer, no call of the
    backoff function. *)
Theorem first_nack_dead_letters_at_once
    (goka : Goka) (output : Consumer) (bs : list string) (tp : string)
    (maxRetries : Z) (calc : Z -> Z) (msg : list byte) (w : World) :
  -1 <= maxRetries <= 0 ->
  (forall d, head (output (length (deliveries (trace w))) d) = Some CallNack) ->
  exists w' : World,
    kafkaMsgProcessor chan_max_amd64 goka output bs tp maxRetries calc msg w = Some (Returned, w')
    /\ trace w'
       = trace w
         ++ [EvLog LPrint "Message received";
             EvMake (length (chans w)) (maxRetries + 1);
             EvOutput (mkDataBlock msg (mkClosure (length (chans w)) true)
                                       (mkClosure (length (chans w)) false))]
         ++ dead_evs goka bs tp msg.
Proof.
  intros Hk Hout.
  assert (Hsz : int_add maxRetries 1 = maxRetries + 1)
    by (apply int_add_id; int_unfold; lia).
  rewrite kafkaMsgProcessor_unfold, Hsz, make_ok by (lim_unfold; lia).
  cbn [logf emit chans trace].
  set (ch := length (chans w)).
  set (db := mkDataBlock msg (mkClosure ch true) (mkClosure ch false)).
  set (c0 := mkChan (maxRetries + 1) [] []).
  set (w1 := mkWorld (chans w ++ [c0]) _).
  assert (Hch1 : chans w1 !! ch = Some c0).
  { unfold w1, ch. cbn [chans]. apply list_lookup_middle. reflexivity. }
  assert (Hn : length (deliveries (trace w1)) = length (deliveries (trace w))).
  { unfold w1. cbn [trace]. rewrite !deliveries_app. cbn [deliveries].
    rewrite !app_nil_r. reflexivity. }
  specialize (Hout db). rewrite <- Hn in Hout.
  destruct (output (length (deliveries (trace w1))) db) as [|c rest] eqn:Hcalls;
    [discriminate|].
  cbn [head] in Hout. inversion Hout; subst c.
  pose proof (send_output_chans output db ch w1 c0 eq_refl eq_refl Hch1) as Hch2.
  rewrite Hcalls in Hch2. cbn [map call_val] in Hch2.
  assert (Hwf : chan_wf c0) by (left; reflexivity).
  destruct (sends_pending (false :: map call_val rest) c0 Hwf) as [Hp _].
  destruct (chan_recv_pending _ false (map call_val rest) Hp) as (c' & Hrecv & _).
  rewrite loop_S.
  erewrite recv_ok;
    [ | rewrite Hch2; apply list_lookup_insert_eq; eapply lookup_lt_Some; exact Hch1
      | exact Hrecv ].
  rewrite Z.geb_leb. destruct (Z.leb_spec maxRetries 0) as [Hle|Hgt]; [|lia].
  rewrite deadLetter_spec. eexists. split; [reflexivity|].
  cbn [trace]. rewrite trace_send_output. unfold w1. cbn [trace].
  rewrite <- !app_assoc. reflexivity.
Qed.

Lemma first_nack_dead_letters_at_once_witness :
  -1 <= -1 <= 0 /\
  (forall d, head (nack_and_ack (length (deliveries (trace world0))) d) = Some CallNack) /\
  exists w' : World,
    kafkaMsgProcessor chan_max_amd64 goka_up nack_and_ack ["kafka:9092"] "orders.errors" (-1) no_backoff
      [x01; x02] world0 = Some (Returned, w')
    /\ trace w'
       = trace world0
         ++ [EvLog LPrint "Message received";
             EvMake (length (chans world0)) (-1 + 1);
             EvOutput (mkDataBlock [x01; x02] (mkClosure (length (chans world0)) true)
                                              (mkClosure (length (chans world0)) false))]
         ++ dead_evs goka_up ["kafka:9092"] "orders.errors" [x01; x02].
Proof.
  split; [lia|]. split; [intros; reflexivity|].
  apply (first_nack_dead_letters_at_once goka_up nack_and_ack ["kafka:9092"] "orders.errors"
           (-1) no_backoff [x01; x02] world0).
  - lia.
  - intros; reflexivity.
Defined.
